(** * simupy.systems.symbolic: symbolic dynamical systems

    A shallow embedding of [simupy/systems/symbolic.py]: the classes
    [DynamicalSystem] and [MemorylessSystem], their property setters, the
    cascade of code generation the setters trigger, [copy] and
    [equilibrium_points].

    Python objects are mutable and an exception leaves behind whatever the
    statements before it already wrote.  The setters are therefore
    computations in a state-and-exception monad whose state survives a
    raised exception.  The state holds the instance ([self]) and the trace
    of calls made to the two external collaborators: the differentiator
    [grad] and the code generator. *)

From Stdlib Require Import String List ZArith Bool Arith Lia.
Import ListNotations.
Open Scope string_scope.
Open Scope Z_scope.

(** ** Symbolic expressions (the fragment of sympy the module touches) *)

(** [Time] is [dynamicsymbols._t]; [Sym c] is a plain [sp.Symbol] other
    than the time symbol; [Dyn x] is the dynamic symbol [x(t)], an applied
    undefined function of time.  Numbers are integers here; the module
    never computes with them itself. *)
Inductive expr : Type :=
| Num (n : Z)
| Time
| Sym (name : string)
| Dyn (name : string)
| Add (a b : expr)
| Mul (a b : expr).

Definition expr_eq_dec (a b : expr) : {a = b} + {a <> b}.
Proof.
  decide equality; solve [apply string_dec | apply Z.eq_dec].
Defined.

Definition mem (a : expr) (l : list expr) : bool :=
  if in_dec expr_eq_dec a l then true else false.

(** Python's [A <= B] on sets. *)
Definition subset (A B : list expr) : bool :=
  forallb (fun a => mem a B) A.

(** [e.atoms(sp.Symbol)]: the plain symbols of [e].  A dynamic symbol
    [x(t)] contains the time symbol. *)
Fixpoint atoms_Symbol (e : expr) : list expr :=
  match e with
  | Num _ => []
  | Time => [Time]
  | Sym c => [Sym c]
  | Dyn _ => [Time]
  | Add a b | Mul a b => atoms_Symbol a ++ atoms_Symbol b
  end.

(** [find_dynamicsymbols(e)]: the applied functions of time in [e]. *)
Fixpoint find_dynamicsymbols (e : expr) : list expr :=
  match e with
  | Dyn x => [Dyn x]
  | Add a b | Mul a b => find_dynamicsymbols a ++ find_dynamicsymbols b
  | _ => []
  end.

(** [d.get(k)] on a dictionary kept as an association list. *)
Fixpoint dict_get {V : Type} (k : string) (d : list (string * V)) : option V :=
  match d with
  | [] => None
  | (k', v) :: d' => if String.eqb k k' then Some v else dict_get k d'
  end.

(** [e.subs(constants_values)]: every constant symbol with an entry in the
    dictionary is replaced by its value. *)
Fixpoint subs (d : list (string * Z)) (e : expr) : expr :=
  match e with
  | Sym c => match dict_get c d with Some v => Num v | None => Sym c end
  | Add a b => Add (subs d a) (subs d b)
  | Mul a b => Mul (subs d a) (subs d b)
  | _ => e
  end.

(** Modelled from the spec: [simupy.utils.symbolic.grad] is not part of
    this module.  Section 4.2: the Jacobian has one row per component of
    the differentiated vector and one column per variable, each entry the
    symbolic partial derivative.  No simplification is performed. *)
Fixpoint diff (e x : expr) : expr :=
  if expr_eq_dec e x then Num 1 else
  match e with
  | Add a b => Add (diff a x) (diff b x)
  | Mul a b => Add (Mul (diff a x) b) (Mul a (diff b x))
  | _ => Num 0
  end.

Definition grad (f basis : list expr) : list (list expr) :=
  map (fun fx => map (fun y => diff fx y) basis) f.

(** ** Python values *)

(** A value assigned to a vector-valued property: [None], a bare sympy
    expression, or a one-dimensional [Array]/[Matrix] given by its
    components. *)
Inductive pyval : Type :=
| PNone
| PExpr (e : expr)
| PArray (l : list expr).

(** A sympy object handed to the code generator. *)
Inductive symval : Type :=
| SExpr (e : expr)
| SArray (l : list expr)
| SMatrix (m : list (list expr)).

(** The expressions a sympy object is made of. *)
Definition symval_exprs (v : symval) : list expr :=
  match v with
  | SExpr e => [e]
  | SArray l => l
  | SMatrix m => List.concat m
  end.

(** The exceptions of the module itself, and [Exception what] for whatever
    else a callable supplied by the caller may raise. *)
Inductive exn : Type :=
| AssertionError
| TypeError
| ValueError
| AttributeError
| Exception (what : string).

Inductive klass : Type := DynamicalSystem | MemorylessSystem.

(** The code generator is a pluggable callable.  One supplied by the
    caller comes with its behaviour: given the keyword arguments, the
    ordered symbols and the expression, it returns a callable ([None]) or
    raises, and what it raises propagates (section 7 of the spec).

    Modelled from the spec: the default generator,
    [simupy.utils.symbolic.lambdify_with_vector_args], is not part of this
    module.  Section 6 gives it as an implementation of the same contract;
    on the expressions modelled here, which contain no construct it could
    refuse, it returns a callable. *)
Inductive generator : Type :=
| lambdify_with_vector_args
| custom_generator
    (name : string)
    (raises : list (string * string) -> list expr -> symval -> option exn).

Definition generator_raises (g : generator)
    (kwargs : list (string * string)) (args : list expr) (body : symval)
  : option exn :=
  match g with
  | lambdify_with_vector_args => None
  | custom_generator _ raises => raises kwargs args body
  end.

Definition DEFAULT_CODE_GENERATOR : generator := lambdify_with_vector_args.
Definition DEFAULT_CODE_GENERATOR_ARGS : list (string * string) :=
  [("modules", "numpy")].

(** [d.update(d')] on dictionaries kept as association lists. *)
Definition dict_update {V : Type} (d d' : list (string * V)) : list (string * V) :=
  d' ++ filter (fun kv => match dict_get (fst kv) d' with
                          | Some _ => false | None => true end) d.

(** The object returned by one call of the code generator on [fargs] and
    [fbody] with keyword arguments [fkwargs].
    [fid] is the identity of the object: the number of external calls made
    before the one that created it. *)
Record callable : Type := mkCallable {
  fid : nat;
  fgen : generator;
  fkwargs : list (string * string);
  fargs : list expr;
  fbody : symval
}.

(** Calls to the external collaborators, most recent first.  [EvCodegen c]
    is a call of the code generator that returned the object [c];
    [EvRaise c e] is a call that would have made [c] and raised [e]. *)
Inductive event : Type :=
| EvGrad (f basis : list expr)
| EvCodegen (c : callable)
| EvRaise (c : callable) (e : exn).

Definition trace : Type := list event.

Definition is_codegen (ev : event) : bool :=
  match ev with
  | EvCodegen _ | EvRaise _ _ => true
  | EvGrad _ _ => false
  end.

(** ** The instance *)

(** The attributes of an instance.  The four numeric functions and the two
    Jacobian expressions are [None] until the statement that assigns them
    has run; every other attribute is written by [__init__] before it is
    first read. *)
Record system : Type := mkSystem {
  cls : klass;
  constants_values : list (string * Z);
  _state : list expr;
  dim_state : nat;
  _initial_condition : list Z;
  _inputs : list expr;
  dim_input : nat;
  code_generator : generator;
  code_generator_args : list (string * string);
  _state_equation : list expr;
  state_equation_function : option callable;
  state_jacobian_equation : option (list (list expr));
  state_jacobian_equation_function : option callable;
  input_jacobian_equation : option (list (list expr));
  input_jacobian_equation_function : option callable;
  dim_output : nat;
  _output_equation : pyval;
  output_equation_function : option callable;
  dt : Z;
  n_events : nat
}.

Definition with_constants_values (v : list (string * Z)) (s : system) : system :=
  {| cls := cls s; constants_values := v; _state := _state s;
     dim_state := dim_state s; _initial_condition := _initial_condition s;
     _inputs := _inputs s; dim_input := dim_input s;
     code_generator := code_generator s;
     code_generator_args := code_generator_args s;
     _state_equation := _state_equation s;
     state_equation_function := state_equation_function s;
     state_jacobian_equation := state_jacobian_equation s;
     state_jacobian_equation_function := state_jacobian_equation_function s;
     input_jacobian_equation := input_jacobian_equation s;
     input_jacobian_equation_function := input_jacobian_equation_function s;
     dim_output := dim_output s; _output_equation := _output_equation s;
     output_equation_function := output_equation_function s; dt := dt s;
     n_events := n_events s |}.

Definition with_state (v : list expr) (s : system) : system :=
  {| cls := cls s; constants_values := constants_values s; _state := v;
     dim_state := dim_state s; _initial_condition := _initial_condition s;
     _inputs := _inputs s; dim_input := dim_input s;
     code_generator := code_generator s;
     code_generator_args := code_generator_args s;
     _state_equation := _state_equation s;
     state_equation_function := state_equation_function s;
     state_jacobian_equation := state_jacobian_equation s;
     state_jacobian_equation_function := state_jacobian_equation_function s;
     input_jacobian_equation := input_jacobian_equation s;
     input_jacobian_equation_function := input_jacobian_equation_function s;
     dim_output := dim_output s; _output_equation := _output_equation s;
     output_equation_function := output_equation_function s; dt := dt s;
     n_events := n_events s |}.

Definition with_dim_state (v : nat) (s : system) : system :=
  {| cls := cls s; constants_values := constants_values s;
     _state := _state s; dim_state := v;
     _initial_condition := _initial_condition s; _inputs := _inputs s;
     dim_input := dim_input s; code_generator := code_generator s;
     code_generator_args := code_generator_args s;
     _state_equation := _state_equation s;
     state_equation_function := state_equation_function s;
     state_jacobian_equation := state_jacobian_equation s;
     state_jacobian_equation_function := state_jacobian_equation_function s;
     input_jacobian_equation := input_jacobian_equation s;
     input_jacobian_equation_function := input_jacobian_equation_function s;
     dim_output := dim_output s; _output_equation := _output_equation s;
     output_equation_function := output_equation_function s; dt := dt s;
     n_events := n_events s |}.

Definition with_initial_condition (v : list Z) (s : system) : system :=
  {| cls := cls s; constants_values := constants_values s;
     _state := _state s; dim_state := dim_state s; _initial_condition := v;
     _inputs := _inputs s; dim_input := dim_input s;
     code_generator := code_generator s;
     code_generator_args := code_generator_args s;
     _state_equation := _state_equation s;
     state_equation_function := state_equation_function s;
     state_jacobian_equation := state_jacobian_equation s;
     state_jacobian_equation_function := state_jacobian_equation_function s;
     input_jacobian_equation := input_jacobian_equation s;
     input_jacobian_equation_function := input_jacobian_equation_function s;
     dim_output := dim_output s; _output_equation := _output_equation s;
     output_equation_function := output_equation_function s; dt := dt s;
     n_events := n_events s |}.

Definition with_inputs (v : list expr) (s : system) : system :=
  {| cls := cls s; constants_values := constants_values s;
     _state := _state s; dim_state := dim_state s;
     _initial_condition := _initial_condition s; _inputs := v;
     dim_input := dim_input s; code_generator := code_generator s;
     code_generator_args := code_generator_args s;
     _state_equation := _state_equation s;
     state_equation_function := state_equation_function s;
     state_jacobian_equation := state_jacobian_equation s;
     state_jacobian_equation_function := state_jacobian_equation_function s;
     input_jacobian_equation := input_jacobian_equation s;
     input_jacobian_equation_function := input_jacobian_equation_function s;
     dim_output := dim_output s; _output_equation := _output_equation s;
     output_equation_function := output_equation_function s; dt := dt s;
     n_events := n_events s |}.

Definition with_dim_input (v : nat) (s : system) : system :=
  {| cls := cls s; constants_values := constants_values s;
     _state := _state s; dim_state := dim_state s;
     _initial_condition := _initial_condition s; _inputs := _inputs s;
     dim_input := v; code_generator := code_generator s;
     code_generator_args := code_generator_args s;
     _state_equation := _state_equation s;
     state_equation_function := state_equation_function s;
     state_jacobian_equation := state_jacobian_equation s;
     state_jacobian_equation_function := state_jacobian_equation_function s;
     input_jacobian_equation := input_jacobian_equation s;
     input_jacobian_equation_function := input_jacobian_equation_function s;
     dim_output := dim_output s; _output_equation := _output_equation s;
     output_equation_function := output_equation_function s; dt := dt s;
     n_events := n_events s |}.

Definition with_code_generator (v : generator) (s : system) : system :=
  {| cls := cls s; constants_values := constants_values s;
     _state := _state s; dim_state := dim_state s;
     _initial_condition := _initial_condition s; _inputs := _inputs s;
     dim_input := dim_input s; code_generator := v;
     code_generator_args := code_generator_args s;
     _state_equation := _state_equation s;
     state_equation_function := state_equation_function s;
     state_jacobian_equation := state_jacobian_equation s;
     state_jacobian_equation_function := state_jacobian_equation_function s;
     input_jacobian_equation := input_jacobian_equation s;
     input_jacobian_equation_function := input_jacobian_equation_function s;
     dim_output := dim_output s; _output_equation := _output_equation s;
     output_equation_function := output_equation_function s; dt := dt s;
     n_events := n_events s |}.

Definition with_code_generator_args (v : list (string * string)) (s : system) : system :=
  {| cls := cls s; constants_values := constants_values s;
     _state := _state s; dim_state := dim_state s;
     _initial_condition := _initial_condition s; _inputs := _inputs s;
     dim_input := dim_input s; code_generator := code_generator s;
     code_generator_args := v; _state_equation := _state_equation s;
     state_equation_function := state_equation_function s;
     state_jacobian_equation := state_jacobian_equation s;
     state_jacobian_equation_function := state_jacobian_equation_function s;
     input_jacobian_equation := input_jacobian_equation s;
     input_jacobian_equation_function := input_jacobian_equation_function s;
     dim_output := dim_output s; _output_equation := _output_equation s;
     output_equation_function := output_equation_function s; dt := dt s;
     n_events := n_events s |}.

Definition with_state_equation (v : list expr) (s : system) : system :=
  {| cls := cls s; constants_values := constants_values s;
     _state := _state s; dim_state := dim_state s;
     _initial_condition := _initial_condition s; _inputs := _inputs s;
     dim_input := dim_input s; code_generator := code_generator s;
     code_generator_args := code_generator_args s; _state_equation := v;
     state_equation_function := state_equation_function s;
     state_jacobian_equation := state_jacobian_equation s;
     state_jacobian_equation_function := state_jacobian_equation_function s;
     input_jacobian_equation := input_jacobian_equation s;
     input_jacobian_equation_function := input_jacobian_equation_function s;
     dim_output := dim_output s; _output_equation := _output_equation s;
     output_equation_function := output_equation_function s; dt := dt s;
     n_events := n_events s |}.

Definition with_state_equation_function (v : option callable) (s : system) : system :=
  {| cls := cls s; constants_values := constants_values s;
     _state := _state s; dim_state := dim_state s;
     _initial_condition := _initial_condition s; _inputs := _inputs s;
     dim_input := dim_input s; code_generator := code_generator s;
     code_generator_args := code_generator_args s;
     _state_equation := _state_equation s; state_equation_function := v;
     state_jacobian_equation := state_jacobian_equation s;
     state_jacobian_equation_function := state_jacobian_equation_function s;
     input_jacobian_equation := input_jacobian_equation s;
     input_jacobian_equation_function := input_jacobian_equation_function s;
     dim_output := dim_output s; _output_equation := _output_equation s;
     output_equation_function := output_equation_function s; dt := dt s;
     n_events := n_events s |}.

Definition with_state_jacobian_equation (v : option (list (list expr))) (s : system) : system :=
  {| cls := cls s; constants_values := constants_values s;
     _state := _state s; dim_state := dim_state s;
     _initial_condition := _initial_condition s; _inputs := _inputs s;
     dim_input := dim_input s; code_generator := code_generator s;
     code_generator_args := code_generator_args s;
     _state_equation := _state_equation s;
     state_equation_function := state_equation_function s;
     state_jacobian_equation := v;
     state_jacobian_equation_function := state_jacobian_equation_function s;
     input_jacobian_equation := input_jacobian_equation s;
     input_jacobian_equation_function := input_jacobian_equation_function s;
     dim_output := dim_output s; _output_equation := _output_equation s;
     output_equation_function := output_equation_function s; dt := dt s;
     n_events := n_events s |}.

Definition with_state_jacobian_equation_function (v : option callable) (s : system) : system :=
  {| cls := cls s; constants_values := constants_values s;
     _state := _state s; dim_state := dim_state s;
     _initial_condition := _initial_condition s; _inputs := _inputs s;
     dim_input := dim_input s; code_generator := code_generator s;
     code_generator_args := code_generator_args s;
     _state_equation := _state_equation s;
     state_equation_function := state_equation_function s;
     state_jacobian_equation := state_jacobian_equation s;
     state_jacobian_equation_function := v;
     input_jacobian_equation := input_jacobian_equation s;
     input_jacobian_equation_function := input_jacobian_equation_function s;
     dim_output := dim_output s; _output_equation := _output_equation s;
     output_equation_function := output_equation_function s; dt := dt s;
     n_events := n_events s |}.

Definition with_input_jacobian_equation (v : option (list (list expr))) (s : system) : system :=
  {| cls := cls s; constants_values := constants_values s;
     _state := _state s; dim_state := dim_state s;
     _initial_condition := _initial_condition s; _inputs := _inputs s;
     dim_input := dim_input s; code_generator := code_generator s;
     code_generator_args := code_generator_args s;
     _state_equation := _state_equation s;
     state_equation_function := state_equation_function s;
     state_jacobian_equation := state_jacobian_equation s;
     state_jacobian_equation_function := state_jacobian_equation_function s;
     input_jacobian_equation := v;
     input_jacobian_equation_function := input_jacobian_equation_function s;
     dim_output := dim_output s; _output_equation := _output_equation s;
     output_equation_function := output_equation_function s; dt := dt s;
     n_events := n_events s |}.

Definition with_input_jacobian_equation_function (v : option callable) (s : system) : system :=
  {| cls := cls s; constants_values := constants_values s;
     _state := _state s; dim_state := dim_state s;
     _initial_condition := _initial_condition s; _inputs := _inputs s;
     dim_input := dim_input s; code_generator := code_generator s;
     code_generator_args := code_generator_args s;
     _state_equation := _state_equation s;
     state_equation_function := state_equation_function s;
     state_jacobian_equation := state_jacobian_equation s;
     state_jacobian_equation_function := state_jacobian_equation_function s;
     input_jacobian_equation := input_jacobian_equation s;
     input_jacobian_equation_function := v; dim_output := dim_output s;
     _output_equation := _output_equation s;
     output_equation_function := output_equation_function s; dt := dt s;
     n_events := n_events s |}.

Definition with_dim_output (v : nat) (s : system) : system :=
  {| cls := cls s; constants_values := constants_values s;
     _state := _state s; dim_state := dim_state s;
     _initial_condition := _initial_condition s; _inputs := _inputs s;
     dim_input := dim_input s; code_generator := code_generator s;
     code_generator_args := code_generator_args s;
     _state_equation := _state_equation s;
     state_equation_function := state_equation_function s;
     state_jacobian_equation := state_jacobian_equation s;
     state_jacobian_equation_function := state_jacobian_equation_function s;
     input_jacobian_equation := input_jacobian_equation s;
     input_jacobian_equation_function := input_jacobian_equation_function s;
     dim_output := v; _output_equation := _output_equation s;
     output_equation_function := output_equation_function s; dt := dt s;
     n_events := n_events s |}.

Definition with_output_equation (v : pyval) (s : system) : system :=
  {| cls := cls s; constants_values := constants_values s;
     _state := _state s; dim_state := dim_state s;
     _initial_condition := _initial_condition s; _inputs := _inputs s;
     dim_input := dim_input s; code_generator := code_generator s;
     code_generator_args := code_generator_args s;
     _state_equation := _state_equation s;
     state_equation_function := state_equation_function s;
     state_jacobian_equation := state_jacobian_equation s;
     state_jacobian_equation_function := state_jacobian_equation_function s;
     input_jacobian_equation := input_jacobian_equation s;
     input_jacobian_equation_function := input_jacobian_equation_function s;
     dim_output := dim_output s; _output_equation := v;
     output_equation_function := output_equation_function s; dt := dt s;
     n_events := n_events s |}.

Definition with_output_equation_function (v : option callable) (s : system) : system :=
  {| cls := cls s; constants_values := constants_values s;
     _state := _state s; dim_state := dim_state s;
     _initial_condition := _initial_condition s; _inputs := _inputs s;
     dim_input := dim_input s; code_generator := code_generator s;
     code_generator_args := code_generator_args s;
     _state_equation := _state_equation s;
     state_equation_function := state_equation_function s;
     state_jacobian_equation := state_jacobian_equation s;
     state_jacobian_equation_function := state_jacobian_equation_function s;
     input_jacobian_equation := input_jacobian_equation s;
     input_jacobian_equation_function := input_jacobian_equation_function s;
     dim_output := dim_output s; _output_equation := _output_equation s;
     output_equation_function := v; dt := dt s; n_events := n_events s |}.

Definition with_dt (v : Z) (s : system) : system :=
  {| cls := cls s; constants_values := constants_values s;
     _state := _state s; dim_state := dim_state s;
     _initial_condition := _initial_condition s; _inputs := _inputs s;
     dim_input := dim_input s; code_generator := code_generator s;
     code_generator_args := code_generator_args s;
     _state_equation := _state_equation s;
     state_equation_function := state_equation_function s;
     state_jacobian_equation := state_jacobian_equation s;
     state_jacobian_equation_function := state_jacobian_equation_function s;
     input_jacobian_equation := input_jacobian_equation s;
     input_jacobian_equation_function := input_jacobian_equation_function s;
     dim_output := dim_output s; _output_equation := _output_equation s;
     output_equation_function := output_equation_function s; dt := v;
     n_events := n_events s |}.

Definition with_n_events (v : nat) (s : system) : system :=
  {| cls := cls s; constants_values := constants_values s;
     _state := _state s; dim_state := dim_state s;
     _initial_condition := _initial_condition s; _inputs := _inputs s;
     dim_input := dim_input s; code_generator := code_generator s;
     code_generator_args := code_generator_args s;
     _state_equation := _state_equation s;
     state_equation_function := state_equation_function s;
     state_jacobian_equation := state_jacobian_equation s;
     state_jacobian_equation_function := state_jacobian_equation_function s;
     input_jacobian_equation := input_jacobian_equation s;
     input_jacobian_equation_function := input_jacobian_equation_function s;
     dim_output := dim_output s; _output_equation := _output_equation s;
     output_equation_function := output_equation_function s; dt := dt s;
     n_events := v |}.

(** [simupy.array.empty_array()]: an array of length zero. *)
Definition empty_array : list expr := [].

(** The instance as allocated, before [__init__] has written anything. *)
Definition blank (k : klass) : system :=
  {| cls := k; constants_values := []; _state := []; dim_state := 0%nat;
     _initial_condition := []; _inputs := []; dim_input := 0%nat;
     code_generator := DEFAULT_CODE_GENERATOR; code_generator_args := [];
     _state_equation := []; state_equation_function := None;
     state_jacobian_equation := None;
     state_jacobian_equation_function := None;
     input_jacobian_equation := None;
     input_jacobian_equation_function := None;
     dim_output := 0%nat; _output_equation := PNone;
     output_equation_function := None; dt := 0; n_events := 0%nat |}.

(** ** The monad of methods *)

Inductive outcome (A : Type) : Type :=
| Ok (a : A)
| Raise (e : exn).
Arguments Ok {A} a.
Arguments Raise {A} e.

Definition M (A : Type) : Type := trace * system -> (trace * system) * outcome A.

Definition ret {A} (a : A) : M A := fun st => (st, Ok a).
Definition raise {A} (e : exn) : M A := fun st => (st, Raise e).
Definition bind {A B} (m : M A) (k : A -> M B) : M B :=
  fun st => match m st with
            | (st', Ok a) => k a st'
            | (st', Raise e) => (st', Raise e)
            end.
Definition self : M system := fun st => (st, Ok (snd st)).
Definition setattr (f : system -> system) : M unit :=
  fun st => ((fst st, f (snd st)), Ok tt).
Definition assert (b : bool) : M unit :=
  if b then ret tt else raise AssertionError.

Declare Scope py_scope.
Delimit Scope py_scope with py.
Notation "x <- m ;; k" := (bind m (fun x => k))
  (at level 61, m at next level, right associativity) : py_scope.
Notation "m ;; k" := (bind m (fun _ => k))
  (at level 61, right associativity) : py_scope.
Open Scope py_scope.

(** The two external calls; each one is recorded in the trace.  [grad] is
    the differentiator modelled above, a total function of the expressions
    modelled here.  The code generator is the instance's own and may raise;
    nothing here catches what it raises. *)
Definition call_grad (f basis : list expr) : M (list (list expr)) :=
  fun st => ((EvGrad f basis :: fst st, snd st), Ok (grad f basis)).

Definition call_code_generator (args : list expr) (body : symval) : M callable :=
  fun st =>
    let c := {| fid := length (fst st);
                fgen := code_generator (snd st);
                fkwargs := code_generator_args (snd st);
                fargs := args; fbody := body |} in
    match generator_raises (code_generator (snd st))
            (code_generator_args (snd st)) args body with
    | None => ((EvCodegen c :: fst st, snd st), Ok c)
    | Some e => ((EvRaise c e :: fst st, snd st), Raise e)
    end.

(** [len(v)]: a bare expression has no length. *)
Definition len (v : pyval) : M nat :=
  match v with
  | PArray l => ret (length l)
  | _ => raise TypeError
  end.

Definition pyval_exprs (v : pyval) : list expr :=
  match v with
  | PNone => []
  | PExpr e => [e]
  | PArray l => l
  end.

Definition allowed_symbols (s : system) : list expr :=
  map Sym (map fst (constants_values s)) ++ [Time].

(** ** DynamicalSystem *)

Definition DynamicalSystem_state_setter (state : pyval) : M unit :=
  let state := match state with
               | PNone => empty_array
               | PExpr e => [e]
               | PArray l => l
               end in
  setattr (with_dim_state (length state)) ;;
  setattr (with_state state).

Definition input_setter (input_ : pyval) : M unit :=
  let input_ := match input_ with
                | PNone => empty_array
                | PExpr e => [e]
                | PArray l => l
                end in
  setattr (with_dim_input (length input_)) ;;
  setattr (with_inputs input_).

Definition update_state_equation_function : M unit :=
  s <- self ;;
  if Nat.eqb (dim_state s) 0 then ret tt else
  f <- call_code_generator
         ([Time] ++ _state s ++ _inputs s)
         (SArray (map (subs (constants_values s)) (_state_equation s))) ;;
  setattr (with_state_equation_function (Some f)).

Definition jacobian_body (s : system) (j : option (list (list expr))) : M symval :=
  match j with
  | Some m => ret (SMatrix (map (map (subs (constants_values s))) m))
  | None => raise AttributeError
  end.

Definition update_state_jacobian_function : M unit :=
  s <- self ;;
  if Nat.eqb (dim_state s) 0 then ret tt else
  body <- jacobian_body s (state_jacobian_equation s) ;;
  f <- call_code_generator ([Time] ++ _state s ++ _inputs s) body ;;
  setattr (with_state_jacobian_equation_function (Some f)).

Definition update_input_jacobian_function : M unit :=
  s <- self ;;
  if Nat.eqb (dim_state s) 0 then ret tt else
  body <- jacobian_body s (input_jacobian_equation s) ;;
  f <- call_code_generator ([Time] ++ _state s ++ _inputs s) body ;;
  setattr (with_input_jacobian_equation_function (Some f)).

(** [v.subs(constants_values)]; [None] has no such method. *)
Definition call_subs (d : list (string * Z)) (v : pyval) : M symval :=
  match v with
  | PNone => raise AttributeError
  | PExpr e => ret (SExpr (subs d e))
  | PArray l => ret (SArray (map (subs d) l))
  end.

Definition update_output_equation_function : M unit :=
  s <- self ;;
  if Nat.eqb (dim_output s) 0 then ret tt else
  if negb (Nat.eqb (dim_state s) 0) then
    body <- call_subs (constants_values s) (_output_equation s) ;;
    f <- call_code_generator ([Time] ++ _state s) body ;;
    setattr (with_output_equation_function (Some f))
  else
    body <- call_subs (constants_values s) (_output_equation s) ;;
    f <- call_code_generator ([Time] ++ _inputs s) body ;;
    setattr (with_output_equation_function (Some f)).

Definition state_equation_setter (state_equation : pyval) : M unit :=
  state_equation <-
    match state_equation with
    | PNone => ret empty_array
    | _ =>
        n <- len state_equation ;;
        s <- self ;;
        assert (Nat.eqb n (length (_state s))) ;;
        assert (subset (flat_map find_dynamicsymbols (pyval_exprs state_equation))
                       (_state s ++ _inputs s)) ;;
        assert (subset (flat_map atoms_Symbol (pyval_exprs state_equation))
                       (allowed_symbols s)) ;;
        ret (pyval_exprs state_equation)
    end ;;
  setattr (with_state_equation state_equation) ;;
  update_state_equation_function ;;
  s <- self ;;
  j <- call_grad (_state_equation s) (_state s) ;;
  setattr (with_state_jacobian_equation (Some j)) ;;
  update_state_jacobian_function ;;
  s <- self ;;
  j <- call_grad (_state_equation s) (_inputs s) ;;
  setattr (with_input_jacobian_equation (Some j)) ;;
  update_input_jacobian_function.

Definition output_equation_setter (output_equation : pyval) : M unit :=
  s <- self ;;
  let output_equation := match output_equation with
                         | PNone => PArray (_state s)
                         | v => v
                         end in
  setattr (with_dim_output (match output_equation with
                            | PArray l => length l
                            | _ => 1%nat   (* except TypeError *)
                            end)) ;;
  assert (subset (flat_map atoms_Symbol (pyval_exprs output_equation))
                 (allowed_symbols s)) ;;
  s <- self ;;
  (if negb (Nat.eqb (dim_state s) 0) then
     assert (subset (flat_map find_dynamicsymbols (pyval_exprs output_equation))
                    (_state s))
   else
     assert (subset (flat_map find_dynamicsymbols (pyval_exprs output_equation))
                    (_inputs s))) ;;
  setattr (with_output_equation output_equation) ;;
  update_output_equation_function.

Definition initial_condition_setter (initial_condition : option (list Z)) : M unit :=
  match initial_condition with
  | Some ic =>
      s <- self ;;
      assert (Nat.eqb (length ic) (dim_state s)) ;;
      setattr (with_initial_condition ic)
  | None =>
      s <- self ;;
      setattr (with_initial_condition (repeat 0 (dim_state s)))
  end.

Definition prepare_to_integrate : M unit := ret tt.

(** ** MemorylessSystem *)

Definition MemorylessSystem_state_setter (state : pyval) : M unit :=
  state <- match state with
           | PNone => ret empty_array
           | _ => raise ValueError
           end ;;
  setattr (with_dim_state (length state)) ;;
  setattr (with_state state).

(** [self.state = v] resolves the property on the class of [self]. *)
Definition state_setter (state : pyval) : M unit :=
  s <- self ;;
  match cls s with
  | DynamicalSystem => DynamicalSystem_state_setter state
  | MemorylessSystem => MemorylessSystem_state_setter state
  end.

(** ** Construction *)

(** The keyword arguments of [__init__], with their defaults. *)
Record init_args : Type := mkArgs {
  a_state_equation : pyval;
  a_state : pyval;
  a_input_ : pyval;
  a_output_equation : pyval;
  a_constants_values : list (string * Z);
  a_dt : Z;
  a_initial_condition : option (list Z);
  a_code_generator : option generator;
  a_code_generator_args : list (string * string)
}.

Definition no_args : init_args :=
  {| a_state_equation := PNone; a_state := PNone; a_input_ := PNone;
     a_output_equation := PNone; a_constants_values := []; a_dt := 0;
     a_initial_condition := None; a_code_generator := None;
     a_code_generator_args := [] |}.

(** [DynamicalSystem.__init__].  [MemorylessSystem.__init__] forwards its
    arguments unchanged to it, so one definition serves both classes; the
    class of [self] decides which [state] setter runs. *)
Definition __init__ (a : init_args) : M unit :=
  setattr (with_constants_values (a_constants_values a)) ;;
  state_setter (a_state a) ;;
  initial_condition_setter (a_initial_condition a) ;;
  input_setter (a_input_ a) ;;
  setattr (with_code_generator
             (match a_code_generator a with
              | Some g => g
              | None => DEFAULT_CODE_GENERATOR
              end)) ;;
  setattr (with_code_generator_args
             (dict_update DEFAULT_CODE_GENERATOR_ARGS (a_code_generator_args a))) ;;
  state_equation_setter (a_state_equation a) ;;
  output_equation_setter (a_output_equation a) ;;
  setattr (with_dt (a_dt a)) ;;
  setattr (with_n_events 0%nat).

(** Calling the class [k] with keyword arguments [a]: allocate an instance
    of class [k] and initialise it.  The caller's own [self] is untouched;
    the trace is shared.  When [__init__] raises, the half-built instance
    is lost with it. *)
Definition new (k : klass) (a : init_args) : M system :=
  fun st => match __init__ a (fst st, blank k) with
            | ((tr, obj), Ok _) => ((tr, snd st), Ok obj)
            | ((tr, _), Raise e) => ((tr, snd st), Raise e)
            end.

(** Reading an attribute that no statement has assigned.  [__init__] above
    never calls the initialiser of the base class
    [simupy.systems.DynamicalSystem], which lies outside this module and is
    taken to define no class-level default for the numeric functions. *)
Definition getattr {A} (v : option A) : M A :=
  match v with
  | Some a => ret a
  | None => raise AttributeError
  end.

Definition copy : M system :=
  s <- self ;;
  copy <- new (cls s)
            {| a_state_equation := PArray (_state_equation s);
               a_state := PArray (_state s);
               a_input_ := PArray (_inputs s);
               a_output_equation := _output_equation s;
               a_constants_values := constants_values s;
               a_dt := dt s;
               a_initial_condition := None;
               a_code_generator := None;
               a_code_generator_args := [] |} ;;
  f <- getattr (output_equation_function s) ;;
  let copy := with_output_equation_function (Some f) copy in
  f <- getattr (state_equation_function s) ;;
  let copy := with_state_equation_function (Some f) copy in
  ret copy.

(** [sp.solve] is sympy's; the module only forwards to it. *)
Section Equilibrium.
Variable Solutions : Type.
Variable sp_solve : list expr -> list expr -> Solutions.

Definition equilibrium_points (s : system) (input_ : pyval) : Solutions :=
  sp_solve (_state_equation s) (_state s).
End Equilibrium.

(** ** Calling a generated function *)

(** Modelled from the spec: the code generator, by default
    [simupy.utils.symbolic.lambdify_with_vector_args], is not part of this
    module.  Section 6: it is called as (ordered symbols, expression,
    options) and returns a callable; "the produced callable, given numeric
    (t, *args) matching ordered_symbols order, must return a numeric array
    matching the expression's shape".  Section 8: the value is that of the
    expression with the parameters bound to the arguments.  A call with
    the wrong number of arguments, or whose body mentions a symbol that is
    not a parameter, has no value. *)
Fixpoint env_get (x : expr) (env : list (expr * Z)) : option Z :=
  match env with
  | [] => None
  | (y, z) :: env' => if expr_eq_dec x y then Some z else env_get x env'
  end.

Fixpoint eval (env : list (expr * Z)) (e : expr) : option Z :=
  match e with
  | Num n => Some n
  | Add a b =>
      match eval env a, eval env b with
      | Some x, Some y => Some (x + y)
      | _, _ => None
      end
  | Mul a b =>
      match eval env a, eval env b with
      | Some x, Some y => Some (x * y)
      | _, _ => None
      end
  | _ => env_get e env
  end.

Fixpoint all_some {A : Type} (l : list (option A)) : option (list A) :=
  match l with
  | [] => Some []
  | Some a :: l' =>
      match all_some l' with
      | Some r => Some (a :: r)
      | None => None
      end
  | None :: _ => None
  end.

Inductive numval : Type :=
| NScalar (z : Z)
| NArray (l : list Z)
| NMatrix (m : list (list Z)).

Definition call (f : callable) (args : list Z) : option numval :=
  if Nat.eqb (length args) (length (fargs f)) then
    let env := combine (fargs f) args in
    match fbody f with
    | SExpr e => option_map NScalar (eval env e)
    | SArray l => option_map NArray (all_some (map (eval env) l))
    | SMatrix m =>
        option_map NMatrix
          (all_some (map (fun row => all_some (map (eval env) row)) m))
    end
  else None.

(** ** Running a method *)

(** A client calls the class [k] with keyword arguments [a] when the trace
    is [tr]: the trace afterwards, and the instance or the exception. *)
Definition construct (k : klass) (a : init_args) (tr : trace) : trace * outcome system :=
  match new k a (tr, blank k) with
  | ((tr', _), r) => (tr', r)
  end.

(** The operations a client can perform on an instance it holds.  An
    operation that raises leaves the instance as the exception found it. *)
Inductive operation : Type :=
| SetState (v : pyval)
| SetInput (v : pyval)
| SetStateEquation (v : pyval)
| SetOutputEquation (v : pyval)
| SetInitialCondition (v : option (list Z))
| PrepareToIntegrate
| Copy.

Definition perform (o : operation) : M unit :=
  match o with
  | SetState v => state_setter v
  | SetInput v => input_setter v
  | SetStateEquation v => state_equation_setter v
  | SetOutputEquation v => output_equation_setter v
  | SetInitialCondition v => initial_condition_setter v
  | PrepareToIntegrate => prepare_to_integrate
  | Copy => _ <- copy ;; ret tt
  end.

Fixpoint perform_all (os : list operation) (st : trace * system) : trace * system :=
  match os with
  | [] => st
  | o :: os' => perform_all os' (fst (perform o st))
  end.

(** ** Worked instances *)

(** [x' = -x + u], started at [x = 1], output defaulted to the state. *)
Definition sym_x : expr := Dyn "x".
Definition sym_y : expr := Dyn "y".
Definition sym_u : expr := Dyn "u".

Definition demo_args : init_args :=
  {| a_state_equation := PArray [Add (Mul (Num (-1)) sym_x) sym_u];
     a_state := PArray [sym_x];
     a_input_ := PArray [sym_u];
     a_output_equation := PNone;
     a_constants_values := [];
     a_dt := 0;
     a_initial_condition := Some [1];
     a_code_generator := None;
     a_code_generator_args := [] |}.

Definition demo : trace * system :=
  Eval vm_compute in
    match new DynamicalSystem demo_args ([], blank DynamicalSystem) with
    | ((tr, _), Ok s) => (tr, s)
    | (st, Raise _) => st
    end.

(** A static gain [y = u] with no state. *)
Definition gain_args : init_args :=
  {| a_state_equation := PNone;
     a_state := PNone;
     a_input_ := PArray [sym_u];
     a_output_equation := PArray [sym_u];
     a_constants_values := [];
     a_dt := 0;
     a_initial_condition := None;
     a_code_generator := None;
     a_code_generator_args := [] |}.

Definition gain : trace * system :=
  Eval vm_compute in
    match new MemorylessSystem gain_args ([], blank MemorylessSystem) with
    | ((tr, _), Ok s) => (tr, s)
    | (st, Raise _) => st
    end.

(** A code generator of the caller's that accepts everything. *)
Definition theano_function : generator :=
  custom_generator "theano_function" (fun _ _ _ => None).

(** [x' = k x] with the constant [k = -2], a code generator of the caller's
    and keyword arguments for it. *)
Definition custom_args : init_args :=
  {| a_state_equation := PArray [Mul (Sym "k") sym_x];
     a_state := PArray [sym_x];
     a_input_ := PNone;
     a_output_equation := PNone;
     a_constants_values := [("k", -2)];
     a_dt := 0;
     a_initial_condition := None;
     a_code_generator := Some theano_function;
     a_code_generator_args := [("modules", "math"); ("cse", "yes")] |}.

Definition custom : trace * system :=
  Eval vm_compute in
    match new DynamicalSystem custom_args ([], blank DynamicalSystem) with
    | ((tr, _), Ok s) => (tr, s)
    | (st, Raise _) => st
    end.

(** A system with a state [x] and nothing else: no state equation, no
    input, output defaulted to the state. *)
Definition bare_args : init_args :=
  {| a_state_equation := PNone;
     a_state := PExpr sym_x;
     a_input_ := PNone;
     a_output_equation := PNone;
     a_constants_values := [];
     a_dt := 0;
     a_initial_condition := None;
     a_code_generator := None;
     a_code_generator_args := [] |}.

Definition bare : trace * system :=
  Eval vm_compute in
    match new DynamicalSystem bare_args ([], blank DynamicalSystem) with
    | ((tr, _), Ok s) => (tr, s)
    | (st, Raise _) => st
    end.

(** The static gain asked for with an empty state vector, and with a state
    equation. *)
Definition gain_with_state_args : init_args :=
  {| a_state_equation := PNone; a_state := PArray [];
     a_input_ := PArray [sym_u]; a_output_equation := PArray [sym_u];
     a_constants_values := []; a_dt := 0; a_initial_condition := None;
     a_code_generator := None; a_code_generator_args := [] |}.

Definition gain_with_state_equation_args : init_args :=
  {| a_state_equation := PArray [sym_u]; a_state := PNone;
     a_input_ := PArray [sym_u]; a_output_equation := PArray [sym_u];
     a_constants_values := []; a_dt := 0; a_initial_condition := None;
     a_code_generator := None; a_code_generator_args := [] |}.






(** A code generator of the caller's that refuses a body with a component
    that is the time symbol itself, and [x' = -x] built with it. *)
Definition refuses_time : generator :=
  custom_generator "refuses_time"
    (fun _ _ body =>
       if mem Time (symval_exprs body) then Some (Exception "unsupported")
       else None).

Definition fussy_args : init_args :=
  {| a_state_equation := PArray [Mul (Num (-1)) sym_x];
     a_state := PArray [sym_x];
     a_input_ := PNone;
     a_output_equation := PNone;
     a_constants_values := [];
     a_dt := 0;
     a_initial_condition := None;
     a_code_generator := Some refuses_time;
     a_code_generator_args := [] |}.

Definition fussy : trace * system :=
  Eval vm_compute in
    match new DynamicalSystem fussy_args ([], blank DynamicalSystem) with
    | ((tr, _), Ok s) => (tr, s)
    | (st, Raise _) => st
    end.

(** The instance [__init__] has built for the static gain when it reaches
    [self.state_equation = state_equation]. *)
Definition gain_before_state_equation : trace * system :=
  Eval vm_compute in
    fst ((setattr (with_constants_values (a_constants_values gain_args)) ;;
          state_setter (a_state gain_args) ;;
          initial_condition_setter (a_initial_condition gain_args) ;;
          input_setter (a_input_ gain_args) ;;
          setattr (with_code_generator DEFAULT_CODE_GENERATOR) ;;
          setattr (with_code_generator_args DEFAULT_CODE_GENERATOR_ARGS))
           ([], blank MemorylessSystem)).

(** * Properties *)

(** ** Vocabulary *)

(** The exception a rejected state equation raises: a bare expression has
    no [len]; a vector fails one of the three assertions. *)
Definition rejection (v : pyval) : exn :=
  match v with
  | PArray _ => AssertionError
  | _ => TypeError
  end.

(** [invokes m store tr s args body]: run on instance [s], the method [m]
    makes exactly one external call, to the instance's code generator with
    the instance's keyword arguments on [args] and [body].  If the generator
    returns, [m] stores the object with [store] and returns; if it raises,
    the exception propagates and the instance is left as it was. *)
Definition invokes (m : M unit) (store : option callable -> system -> system)
    (tr : trace) (s : system) (args : list expr) (body : symval) : Prop :=
  let c := {| fid := length tr;
              fgen := code_generator s;
              fkwargs := code_generator_args s;
              fargs := args; fbody := body |} in
  match generator_raises (code_generator s) (code_generator_args s) args body with
  | None => m (tr, s) = ((EvCodegen c :: tr, store (Some c) s), Ok tt)
  | Some e => m (tr, s) = ((EvRaise c e :: tr, s), Raise e)
  end.

Definition subs_value (d : list (string * Z)) (v : pyval) : symval :=
  match v with
  | PExpr e => SExpr (subs d e)
  | other => SArray (map (subs d) (pyval_exprs other))
  end.

(** Every numeric function the instance holds was generated for the
    vectors, constants and expressions the instance now stores. *)
Definition generated_from (s : system) : Prop :=
  let d := constants_values s in
  let t_x_u := Time :: _state s ++ _inputs s in
  (forall f, state_equation_function s = Some f ->
     fargs f = t_x_u /\
     fbody f = SArray (map (subs d) (_state_equation s))) /\
  (forall f, state_jacobian_equation_function s = Some f ->
     fargs f = t_x_u /\
     exists j, state_jacobian_equation s = Some j /\
               fbody f = SMatrix (map (map (subs d)) j)) /\
  (forall f, input_jacobian_equation_function s = Some f ->
     fargs f = t_x_u /\
     exists j, input_jacobian_equation s = Some j /\
               fbody f = SMatrix (map (map (subs d)) j)) /\
  (forall f, output_equation_function s = Some f ->
     fargs f = Time :: (if Nat.eqb (dim_state s) 0 then _inputs s else _state s) /\
     fbody f = subs_value d (_output_equation s)).

Definition codegen_calls (tr : trace) : list event := filter is_codegen tr.
Definition grad_calls (tr : trace) : list event :=
  filter (fun ev => negb (is_codegen ev)) tr.

(** A stored function was regenerated by a method started on trace
    [before] when it is an object created by a call made after [before]. *)
Definition regenerated (before : trace) (f : option callable) : Prop :=
  exists c, f = Some c /\ (length before <= fid c)%nat.

(** The reading of C1: a vector assignment that returns has regenerated
    the state-equation function and the output-equation function. *)
Definition assignment_regenerates (m : M unit) (st : trace * system) : Prop :=
  forall tr' s',
    m st = ((tr', s'), Ok tt) ->
    regenerated (fst st) (state_equation_function s') /\
    regenerated (fst st) (output_equation_function s').

(** The derived attributes of two instances coincide. *)
Definition same_derived (s s' : system) : Prop :=
  state_equation_function s' = state_equation_function s /\
  output_equation_function s' = output_equation_function s /\
  state_jacobian_equation_function s' = state_jacobian_equation_function s /\
  input_jacobian_equation_function s' = input_jacobian_equation_function s /\
  state_jacobian_equation s' = state_jacobian_equation s /\
  input_jacobian_equation s' = input_jacobian_equation s /\
  _state_equation s' = _state_equation s /\
  _output_equation s' = _output_equation s /\
  dim_output s' = dim_output s.

(** The length an output equation is recorded with. *)
Definition output_length (v : pyval) (s : system) : nat :=
  match v with
  | PNone => length (_state s)
  | PExpr _ => 1%nat
  | PArray l => length l
  end.

(** The reading of C3: the assignment calls neither the differentiator nor
    the code generator, and leaves both Jacobian expressions and the three
    functions as they were. *)
Definition jacobians_skipped (v : pyval) (st : trace * system) : Prop :=
  forall tr' s' r,
    state_equation_setter v st = ((tr', s'), r) ->
    grad_calls tr' = grad_calls (fst st) /\
    codegen_calls tr' = codegen_calls (fst st) /\
    state_jacobian_equation s' = state_jacobian_equation (snd st) /\
    input_jacobian_equation s' = input_jacobian_equation (snd st).

(** [keeps P m]: whatever [m] does to the instance, and whether it returns
    or raises, it carries an instance satisfying [P] to one satisfying [P]. *)
Definition keeps (P : system -> Prop) {A : Type} (m : M A) : Prop :=
  forall st, P (snd st) -> P (snd (fst (m st))).

Definition memoryless (s : system) : Prop :=
  cls s = MemorylessSystem /\ _state s = [] /\ dim_state s = 0%nat.

(** The recorded dimensions are the lengths of the stored vectors. *)
Definition dims_agree (s : system) : Prop :=
  dim_state s = length (_state s) /\ dim_input s = length (_inputs s).


(** [triple P m Q]: started on an instance satisfying [P], a run of [m]
    that returns ends on an instance satisfying [Q]. *)
Definition triple (P : system -> Prop) {A : Type} (m : M A)
    (Q : system -> Prop) : Prop :=
  forall st st' a, P (snd st) -> m st = (st', Ok a) -> Q (snd st').

Definition anything (s : system) : Prop := True.

(** The initial condition an instance holds after [v] was assigned. *)
Definition initial_condition_ok (v : option (list Z)) (s : system) : Prop :=
  _initial_condition s
    = match v with
      | Some ic => ic
      | None => repeat 0 (dim_state s)
      end /\
  length (_initial_condition s) = dim_state s.

(** The stored state equation passes the checks of its setter. *)
Definition state_equation_valid (s : system) : Prop :=
  (_state_equation s = [] \/ length (_state_equation s) = length (_state s)) /\
  incl (flat_map find_dynamicsymbols (_state_equation s))
       (_state s ++ _inputs s) /\
  incl (flat_map atoms_Symbol (_state_equation s)) (allowed_symbols s).

(** The stored output equation passes the checks of its setter, and
    [dim_output] is its length (1 for a bare expression). *)
Definition output_equation_valid (s : system) : Prop :=
  _output_equation s <> PNone /\
  dim_output s = match _output_equation s with
                 | PArray l => length l
                 | _ => 1%nat
                 end /\
  incl (flat_map atoms_Symbol (pyval_exprs (_output_equation s)))
       (allowed_symbols s) /\
  incl (flat_map find_dynamicsymbols (pyval_exprs (_output_equation s)))
       (if Nat.eqb (dim_state s) 0 then _inputs s else _state s).

Definition has (f : option callable) : Prop := exists c, f = Some c.

(** No numeric function has been generated yet. *)
Definition no_functions (s : system) : Prop :=
  state_equation_function s = None /\
  state_jacobian_equation_function s = None /\
  input_jacobian_equation_function s = None /\
  output_equation_function s = None.

(** The state-equation function and the Jacobian functions exist exactly
    on a system with state. *)
Definition state_functions_present (s : system) : Prop :=
  (dim_state s = 0%nat ->
     state_equation_function s = None /\
     state_jacobian_equation_function s = None /\
     input_jacobian_equation_function s = None) /\
  (dim_state s <> 0%nat ->
     has (state_equation_function s) /\
     has (state_jacobian_equation_function s) /\
     has (input_jacobian_equation_function s)).

(** The output function exists exactly when there is an output. *)
Definition output_function_present (s : system) : Prop :=
  (dim_output s = 0%nat -> output_equation_function s = None) /\
  (dim_output s <> 0%nat -> has (output_equation_function s)).

(** A stored function, if any, was made by the instance's code generator
    with the instance's keyword arguments. *)
Definition made_by (s : system) (f : option callable) : Prop :=
  forall c, f = Some c ->
    fgen c = code_generator s /\ fkwargs c = code_generator_args s.

Definition functions_made_by_generator (s : system) : Prop :=
  made_by s (state_equation_function s) /\
  made_by s (state_jacobian_equation_function s) /\
  made_by s (input_jacobian_equation_function s) /\
  made_by s (output_equation_function s).

(** The generator and keyword arguments requested from the constructor. *)
Definition generator_chosen (a : init_args) (s : system) : Prop :=
  code_generator s = match a_code_generator a with
                     | Some g => g
                     | None => DEFAULT_CODE_GENERATOR
                     end /\
  code_generator_args s
    = dict_update DEFAULT_CODE_GENERATOR_ARGS (a_code_generator_args a).

(** The checks of the state-equation setter. *)
Definition state_equation_acceptable (v : pyval) (s : system) : bool :=
  match v with
  | PNone => true
  | PExpr _ => false
  | PArray l =>
      Nat.eqb (length l) (length (_state s))
      && subset (flat_map find_dynamicsymbols l) (_state s ++ _inputs s)
      && subset (flat_map atoms_Symbol l) (allowed_symbols s)
  end.

(** A memoryless system that holds none of the functions of the state. *)
Definition memoryless_without_state_functions (s : system) : Prop :=
  memoryless s /\
  state_equation_function s = None /\
  state_jacobian_equation_function s = None /\
  input_jacobian_equation_function s = None.

(** Every symbol a body mentions, plain or dynamic, is a parameter. *)
Definition closed_over (params : list expr) (body : symval) : Prop :=
  forall e, In e (symval_exprs body) ->
    incl (atoms_Symbol e ++ find_dynamicsymbols e) params.


(** ** Tactics *)

(** Unfold the monad only. *)
Ltac run_method :=
  cbv [bind self setattr assert ret raise len fst snd].

(** Unfold the monad and the attribute accesses of a method applied to an
    instance given by its fields. *)
Ltac reduce_step :=
  cbv [bind self setattr assert ret raise len getattr fst snd
       call_code_generator call_grad call_subs jacobian_body
       with_constants_values with_state with_dim_state with_initial_condition
       with_inputs with_dim_input with_code_generator with_code_generator_args
       with_state_equation with_state_equation_function
       with_state_jacobian_equation with_state_jacobian_equation_function
       with_input_jacobian_equation with_input_jacobian_equation_function
       with_dim_output with_output_equation with_output_equation_function
       with_dt with_n_events
       cls constants_values _state dim_state _initial_condition _inputs
       dim_input code_generator code_generator_args _state_equation
       state_equation_function state_jacobian_equation
       state_jacobian_equation_function input_jacobian_equation
       input_jacobian_equation_function dim_output _output_equation
       output_equation_function dt n_events
       blank a_state_equation a_state a_input_ a_output_equation
       a_constants_values a_dt a_initial_condition a_code_generator
       a_code_generator_args].

Ltac split_branch :=
  match goal with
  | H : ?c = _ |- context [if ?c then _ else _] => rewrite H
  | H : ?c = _ |- context [if negb ?c then _ else _] => rewrite H
  | H : generator_raises ?g ?k ?a ?b = _
    |- context [generator_raises ?g ?k ?a ?b] => rewrite H
  | |- context [generator_raises ?g ?k ?a ?b] =>
      lazymatch g with
      | DEFAULT_CODE_GENERATOR =>
          change (generator_raises g k a b) with (@None exn)
      | lambdify_with_vector_args =>
          change (generator_raises g k a b) with (@None exn)
      | _ => destruct (generator_raises g k a b) eqn:?
      end
  | |- context [if ?c then _ else _] =>
      lazymatch type of c with
      | bool =>
          lazymatch c with
          | true => fail
          | false => fail
          | negb ?d => destruct d eqn:?
          | _ => destruct c eqn:?
          end
      end
  end.

Ltac reduce_tests := reduce_step; cbn [Nat.eqb negb]; reduce_step.

Ltac run_cases := reduce_tests; repeat (split_branch; reduce_tests).

(** A trace does not equal itself with calls added. *)
Ltac absurd_trace :=
  match goal with
  | H : _ :: _ = _ |- _ =>
      apply (f_equal (@length event)) in H; cbn [length] in H; lia
  end.

Ltac unfold_updates :=
  unfold update_state_equation_function, update_state_jacobian_function,
    update_input_jacobian_function, update_output_equation_function.

(** ** The worked instances are what the constructor returns *)

Example demo_constructed :
  construct DynamicalSystem demo_args [] = (fst demo, Ok (snd demo)).
Proof. reflexivity. Qed.

Example gain_constructed :
  construct MemorylessSystem gain_args [] = (fst gain, Ok (snd gain)).
Proof. reflexivity. Qed.

Example demo_state_equation_value :
  option_map (fun f => call f [0; 1; 0]) (state_equation_function (snd demo))
    = Some (Some (NArray [-1])).
Proof. reflexivity. Qed.

(** ** Sets as lists *)

Lemma mem_In (a : expr) (l : list expr) : mem a l = true <-> In a l.
Proof.
  unfold mem. destruct (in_dec expr_eq_dec a l); split; intros; try easy.
Qed.

Lemma subset_incl (A B : list expr) : subset A B = true <-> incl A B.
Proof.
  unfold subset, incl. rewrite forallb_forall.
  split; intros H a Ha; apply mem_In; auto.
Qed.

Lemma subset_without (A B : list expr) (d : expr) :
  In d A -> ~ In d B -> subset A B = false.
Proof.
  intros HA HB. destruct (subset A B) eqn:E; [|reflexivity].
  apply subset_incl in E. elim HB. apply E, HA.
Qed.

(** ** Invariants of methods *)

Section Keeps.
Variable P : system -> Prop.

Lemma keeps_ret {A} (a : A) : keeps P (ret a).
Proof. intros st H. exact H. Qed.

Lemma keeps_raise {A} (e : exn) : keeps P (@raise A e).
Proof. intros st H. exact H. Qed.

Lemma keeps_self : keeps P self.
Proof. intros st H. exact H. Qed.

Lemma keeps_assert (b : bool) : keeps P (assert b).
Proof. destruct b; intros st H; exact H. Qed.

Lemma keeps_len (v : pyval) : keeps P (len v).
Proof. destruct v; intros st H; exact H. Qed.

Lemma keeps_getattr {A} (v : option A) : keeps P (getattr v).
Proof. destruct v; intros st H; exact H. Qed.

Lemma keeps_call_grad (f basis : list expr) : keeps P (call_grad f basis).
Proof. intros st H. exact H. Qed.

Lemma keeps_call_code_generator (args : list expr) (body : symval) :
  keeps P (call_code_generator args body).
Proof.
  intros st H. unfold call_code_generator.
  destruct (generator_raises _ _ _ _); exact H.
Qed.

Lemma keeps_call_subs (d : list (string * Z)) (v : pyval) :
  keeps P (call_subs d v).
Proof. destruct v; intros st H; exact H. Qed.

Lemma keeps_jacobian_body (s : system) (j : option (list (list expr))) :
  keeps P (jacobian_body s j).
Proof. destruct j; intros st H; exact H. Qed.

Lemma keeps_setattr (f : system -> system) :
  (forall s, P s -> P (f s)) -> keeps P (setattr f).
Proof. intros Hf st H. apply Hf, H. Qed.

Lemma keeps_bind {A B} (m : M A) (k : A -> M B) :
  keeps P m -> (forall a, keeps P (k a)) -> keeps P (bind m k).
Proof.
  intros Hm Hk st H. unfold bind.
  specialize (Hm st H). destruct (m st) as [st1 [a|e]].
  - apply Hk, Hm.
  - exact Hm.
Qed.

(** A new instance is built on the side: [self] is not involved. *)
Lemma keeps_new (k : klass) (a : init_args) : keeps P (new k a).
Proof.
  intros st H. unfold new.
  destruct (__init__ a (fst st, blank k)) as [[tr obj] [u|e]]; exact H.
Qed.
End Keeps.

Ltac keeps_step :=
  match goal with
  | |- keeps _ (bind _ _) => apply keeps_bind; [|intro]
  | |- keeps _ (ret _) => apply keeps_ret
  | |- keeps _ (raise _) => apply keeps_raise
  | |- keeps _ self => apply keeps_self
  | |- keeps _ (assert _) => apply keeps_assert
  | |- keeps _ (len _) => apply keeps_len
  | |- keeps _ (getattr _) => apply keeps_getattr
  | |- keeps _ (call_grad _ _) => apply keeps_call_grad
  | |- keeps _ (call_code_generator _ _) => apply keeps_call_code_generator
  | |- keeps _ (call_subs _ _) => apply keeps_call_subs
  | |- keeps _ (jacobian_body _ _) => apply keeps_jacobian_body
  | |- keeps _ (new _ _) => apply keeps_new
  | |- keeps _ (if ?c then _ else _) => destruct c
  | |- keeps _ (match ?v with _ => _ end) => destruct v
  end.

(** Writing an attribute other than [_state] and [dim_state]. *)
Ltac other_attribute :=
  apply keeps_setattr;
  let s := fresh "s" in
  let H := fresh "H" in
  intros s H; destruct s; exact H.


(** ** Composing methods *)

Lemma triple_bind {A B} (P R Q : system -> Prop) (m : M A) (k : A -> M B) :
  triple P m R -> (forall a, triple R (k a) Q) -> triple P (bind m k) Q.
Proof.
  intros Hm Hk st st' b HP. unfold bind.
  destruct (m st) as [st1 [a|e]] eqn:E; [|discriminate].
  intros H. apply (Hk a st1 st' b); [|exact H].
  apply (Hm st st1 a HP E).
Qed.

Lemma triple_skip {A B} (P Q : system -> Prop) (m : M A) (k : A -> M B) :
  (forall a, triple anything (k a) Q) -> triple P (bind m k) Q.
Proof.
  intros Hk. apply (triple_bind P anything Q); [|exact Hk].
  intros st st' a _ _. exact I.
Qed.

Lemma triple_keeps {A} (P : system -> Prop) (m : M A) :
  keeps P m -> triple P m P.
Proof.
  intros Hm st st' a HP E. specialize (Hm st HP). rewrite E in Hm. exact Hm.
Qed.

Lemma triple_then_keeps {A B} (P Q : system -> Prop) (m : M A) (k : A -> M B) :
  triple P m Q -> (forall a, keeps Q (k a)) -> triple P (bind m k) Q.
Proof.
  intros Hm Hk. apply (triple_bind P Q Q); [exact Hm|].
  intros a. apply triple_keeps, Hk.
Qed.

Lemma construct_init (k : klass) (a : init_args) (tr tr0 : trace) (s0 : system) :
  construct k a tr = (tr0, Ok s0) ->
  __init__ a (tr, blank k) = ((tr0, s0), Ok tt).
Proof.
  unfold construct, new. cbn [fst snd].
  destruct (__init__ a (tr, blank k)) as [[tr1 obj] [[]|e]];
    intros E; [|discriminate E].
  injection E as <- <-. reflexivity.
Qed.

(** Split a sequence of statements, unfold the setters and check that each
    attribute written is one the invariant does not mention. *)
Ltac frame_keeps :=
  repeat match goal with
         | |- keeps _ (bind _ _) => apply keeps_bind; [|intro]
         end;
  unfold input_setter, initial_condition_setter, state_equation_setter,
    output_equation_setter, state_setter, DynamicalSystem_state_setter,
    MemorylessSystem_state_setter;
  unfold_updates;
  repeat keeps_step; other_attribute.

Lemma triple_keeps_then {A B} (P Q : system -> Prop) (m : M A) (k : A -> M B) :
  keeps P m -> (forall a, triple P (k a) Q) -> triple P (bind m k) Q.
Proof.
  intros Hm Hk. apply (triple_bind P P Q); [apply triple_keeps, Hm|exact Hk].
Qed.

Lemma triple_setattr (P Q : system -> Prop) (f : system -> system) :
  (forall s, P s -> Q (f s)) -> triple P (setattr f) Q.
Proof.
  intros Hf [tr s] st' a HP E. injection E as <-. apply Hf, HP.
Qed.

Lemma no_functions_blank (k : klass) : no_functions (blank k).
Proof. repeat split. Qed.

(** ** Assigning the state or the input vector *)

(** C1 fails on the worked instance: renaming the state to [y], or the
    input to [y], returns normally, yet neither function is regenerated.
    The state-equation function is still the object made for the
    parameters [t, x, u]. *)
Lemma vector_assignment_regenerates_nothing :
  ~ assignment_regenerates (state_setter (PArray [sym_y])) demo /\
  ~ assignment_regenerates (input_setter (PArray [sym_y])) demo /\
  (exists s' f,
     state_setter (PArray [sym_y]) demo = ((fst demo, s'), Ok tt) /\
     _state s' = [sym_y] /\
     state_equation_function s' = Some f /\
     fargs f = [Time; sym_x; sym_u]).
Proof.
  split; [|split].
  - intros H. destruct (H _ _ eq_refl) as [[c [Hc Hfid]] _].
    injection Hc as <-. simpl in Hfid. lia.
  - intros H. destruct (H _ _ eq_refl) as [[c [Hc Hfid]] _].
    injection Hc as <-. simpl in Hfid. lia.
  - eexists. eexists. split; [reflexivity|]. repeat split; reflexivity.
Qed.

(** C1 as the code has it.  Assigning the state vector or the input vector
    stores the vector ([None] as the empty vector, a bare expression as a
    vector of length one) and its length, and does nothing else: nothing is
    validated, no external call is made, and every derived attribute, the
    four numeric functions among them, is the object it was before. *)
Theorem vector_assignment_only_stores (v : pyval) (tr : trace) (s : system) :
  let vec := pyval_exprs v in
  let s1 := with_state vec (with_dim_state (length vec) s) in
  let s2 := with_inputs vec (with_dim_input (length vec) s) in
  DynamicalSystem_state_setter v (tr, s) = ((tr, s1), Ok tt) /\
  input_setter v (tr, s) = ((tr, s2), Ok tt) /\
  _state s1 = vec /\ dim_state s1 = length vec /\
  _inputs s2 = vec /\ dim_input s2 = length vec /\
  same_derived s s1 /\ same_derived s s2.
Proof.
  destruct v; cbv zeta; repeat split; reflexivity.
Qed.

(** ** Rejected assignments and what they leave behind *)

(** A state equation that is rejected, which is a raise before any external
    call, leaves no mark. *)
Lemma state_equation_setter_raise
    (v : pyval) (tr : trace) (s s' : system) (e : exn) :
  state_equation_setter v (tr, s) = ((tr, s'), Raise e) -> s' = s.
Proof.
  destruct s. unfold state_equation_setter. unfold_updates.
  destruct v as [|x|l]; run_cases; intros H;
    solve [ discriminate H
          | injection H as <- _; reflexivity
          | injection H as Ht _ _; absurd_trace ].
Qed.

(** So does a rejected initial condition. *)
Lemma initial_condition_setter_raise
    (v : option (list Z)) (st st' : trace * system) (e : exn) :
  initial_condition_setter v st = (st', Raise e) -> st' = st.
Proof.
  destruct st as [tr s]. destruct s. unfold initial_condition_setter.
  destruct v as [ic|]; run_cases; intros H;
    solve [discriminate H | injection H as <- _; reflexivity].
Qed.

(** And so does a state rejected by a memoryless system. *)
Lemma MemorylessSystem_state_setter_raise
    (v : pyval) (st st' : trace * system) (e : exn) :
  MemorylessSystem_state_setter v st = (st', Raise e) -> st' = st /\ e = ValueError.
Proof.
  destruct st as [tr s]. destruct s. unfold MemorylessSystem_state_setter.
  destruct v; run_cases; intros H;
    solve [discriminate H | injection H as <- <-; split; reflexivity].
Qed.

(** A rejected output equation, which is a raise before any external call,
    has already overwritten [dim_output]: everything else is as it was. *)
Lemma output_equation_setter_raise
    (v : pyval) (tr : trace) (s s' : system) (e : exn) :
  output_equation_setter v (tr, s) = ((tr, s'), Raise e) ->
  s' = with_dim_output (output_length v s) s /\ e = AssertionError.
Proof.
  destruct s. unfold output_equation_setter, output_length. unfold_updates.
  destruct v as [|x|l]; run_cases; intros H;
    solve [ discriminate H
          | injection H as <- <-; split; reflexivity
          | injection H as Ht _ _; absurd_trace ].
Qed.

(** C2 (the code departs from it).  On the worked instance, whose output
    equation is [[x]] with [dim_output = 1], assigning the two-component
    output equation [[x, y]] is rejected, because [y] is not a state
    symbol; yet the instance is not what it was: [dim_output] is now 2,
    while the stored output equation is still [[x]] and the output function
    is still the one generated for it.  The state-equation setter and the
    initial-condition setter, by contrast, leave nothing behind when they
    reject ([state_equation_setter_raise],
    [initial_condition_setter_raise]). *)
Theorem rejected_output_equation_changes_dim_output :
  exists s',
    output_equation_setter (PArray [sym_x; sym_y]) demo
      = ((fst demo, s'), Raise AssertionError) /\
    dim_output (snd demo) = 1%nat /\
    dim_output s' = 2%nat /\
    _output_equation s' = PArray [sym_x] /\
    _output_equation s' = _output_equation (snd demo) /\
    output_equation_function s' = output_equation_function (snd demo).
Proof.
  exists (with_dim_output 2 (snd demo)). repeat split; reflexivity.
Qed.

(** ** Assigning the state equation of a system without state *)

(** C3 fails on the static gain, which has [dim_state = 0]: while it is
    being constructed, the assignment of its (absent) state equation calls
    [grad] twice and stores both results; assigning an empty state equation
    to the finished instance calls [grad] twice again. *)
Lemma stateless_jacobians_still_derived :
  dim_state (snd gain_before_state_equation) = 0%nat /\
  ~ jacobians_skipped PNone gain_before_state_equation /\
  dim_state (snd gain) = 0%nat /\
  ~ jacobians_skipped (PArray []) gain /\
  (exists s',
     state_equation_setter PNone gain_before_state_equation
       = (([EvGrad [] [sym_u]; EvGrad [] []], s'), Ok tt) /\
     state_jacobian_equation (snd gain_before_state_equation) = None /\
     state_jacobian_equation s' = Some [] /\
     input_jacobian_equation (snd gain_before_state_equation) = None /\
     input_jacobian_equation s' = Some []).
Proof.
  split; [reflexivity|]. split; [|split; [reflexivity|split]].
  - intros H. destruct (H _ _ _ eq_refl) as [Hg _]. discriminate Hg.
  - intros H. destruct (H _ _ _ eq_refl) as [Hg _]. discriminate Hg.
  - eexists. split; [reflexivity|]. repeat split; reflexivity.
Qed.

(** C3 as the code has it.  When [dim_state] is zero, assigning the state
    equation never calls the code generator and leaves the state-equation
    function and both Jacobian functions as they were.  The symbolic
    Jacobians are derived all the same: an accepted assignment calls [grad]
    on the stored equation, first for the state vector and then for the
    input vector, and stores both results.  A rejected assignment changes
    nothing. *)
Theorem stateless_state_equation_assignment
    (v : pyval) (tr tr' : trace) (s s' : system) (r : outcome unit) :
  dim_state s = 0%nat ->
  state_equation_setter v (tr, s) = ((tr', s'), r) ->
  codegen_calls tr' = codegen_calls tr /\
  state_equation_function s' = state_equation_function s /\
  state_jacobian_equation_function s' = state_jacobian_equation_function s /\
  input_jacobian_equation_function s' = input_jacobian_equation_function s /\
  match r with
  | Ok _ =>
      tr' = EvGrad (_state_equation s') (_inputs s)
              :: EvGrad (_state_equation s') (_state s) :: tr /\
      state_jacobian_equation s' = Some (grad (_state_equation s') (_state s)) /\
      input_jacobian_equation s' = Some (grad (_state_equation s') (_inputs s))
  | Raise _ => tr' = tr /\ s' = s
  end.
Proof.
  destruct s. cbn [dim_state]. intros ->.
  unfold state_equation_setter. unfold_updates.
  destruct v as [|x|l]; run_cases;
    intros H; injection H as H1 H2 H3;
    subst tr' s' r; repeat split; reflexivity.
Qed.

Lemma stateless_state_equation_assignment_witness :
  dim_state (snd gain) = 0%nat /\
  (exists s',
     state_equation_setter (PArray []) gain
       = ((EvGrad [] [sym_u] :: EvGrad [] [] :: fst gain, s'), Ok tt) /\
     state_equation_function s' = None /\
     state_jacobian_equation_function s' = None /\
     input_jacobian_equation_function s' = None /\
     state_jacobian_equation s' = Some [] /\
     input_jacobian_equation s' = Some []).
Proof.
  split; [reflexivity|].
  destruct (state_equation_setter (PArray []) gain) as [[tr' s'] r] eqn:E.
  pose proof (stateless_state_equation_assignment
                (PArray []) (fst gain) tr' (snd gain) s' r eq_refl E) as H.
  vm_compute in E. injection E as <- <- <-.
  destruct H as (_ & H1 & H2 & H3 & _ & H4 & H5).
  eexists. split; [reflexivity|]. repeat split; assumption.
Defined.

(** ** Copying *)

(** C4 (the code departs from it).  [copy] of a memoryless system never
    returns.  It calls the class with [state=self.state]; the stored state
    of a memoryless system is the empty array, not [None], and the
    memoryless [state] setter raises [ValueError] for every value other
    than [None].  Nothing has been generated by then and [self] is
    untouched. *)
Theorem copy_of_memoryless_raises (tr : trace) (s : system) :
  cls s = MemorylessSystem ->
  copy (tr, s) = ((tr, s), Raise ValueError).
Proof.
  destruct s. cbn [cls]. intros ->.
  unfold copy, new, __init__, state_setter, MemorylessSystem_state_setter.
  reduce_step. reflexivity.
Qed.

Lemma copy_of_memoryless_raises_witness :
  cls (snd gain) = MemorylessSystem /\
  copy gain = (gain, Raise ValueError).
Proof.
  split; [reflexivity|].
  exact (copy_of_memoryless_raises (fst gain) (snd gain) eq_refl).
Defined.

(** Whenever [copy] returns, the copy is as C4 describes it: rebuilt from
    the stored vectors, equations, constants and [dt]; holding the very
    objects of the source as output and state-equation functions; with the
    zero vector as initial condition, the default code generator, and, for
    a system with state, Jacobian functions created during the copy. *)
Lemma copy_returns (tr tr' : trace) (s s' c : system) :
  _output_equation s <> PNone ->
  copy (tr, s) = ((tr', s'), Ok c) ->
  s' = s /\
  cls c = cls s /\
  _state c = _state s /\
  _inputs c = _inputs s /\
  _state_equation c = _state_equation s /\
  _output_equation c = _output_equation s /\
  constants_values c = constants_values s /\
  dt c = dt s /\
  output_equation_function c = output_equation_function s /\
  state_equation_function c = state_equation_function s /\
  _initial_condition c = repeat 0 (length (_state s)) /\
  code_generator c = DEFAULT_CODE_GENERATOR /\
  (length (_state s) <> 0%nat ->
   regenerated tr (state_jacobian_equation_function c) /\
   regenerated tr (input_jacobian_equation_function c)).
Proof.
  destruct s. cbn [_output_equation]. intros Hout.
  unfold copy, new, __init__, state_setter,
    DynamicalSystem_state_setter, MemorylessSystem_state_setter, input_setter,
    initial_condition_setter, state_equation_setter, output_equation_setter.
  unfold_updates.
  destruct cls0, output_equation_function0, state_equation_function0,
    _output_equation0; try congruence;
    run_cases; intros H; try discriminate H.
  all: injection H as H1 H2 H3; subst tr' s' c; cbn.
  all: repeat match goal with
              | |- _ /\ _ => split
              | |- _ -> _ => intro
              end; try reflexivity.
  all: try match goal with
           | H : (length ?l =? 0)%nat = true, N : length ?l <> 0%nat |- _ =>
               apply Nat.eqb_eq in H; contradiction
           end.
  all: eexists; (split; [reflexivity|cbn [fid length]; lia]).
Qed.

(** On the worked instance, which has state, [copy] does return: the copy
    holds the very objects of the source as its output and state-equation
    functions, its Jacobian functions are new objects, and its initial
    condition is the zero vector although the source starts at 1. *)
Example copy_of_demo :
  exists tr' c,
    copy demo = ((tr', snd demo), Ok c) /\
    output_equation_function c = output_equation_function (snd demo) /\
    state_equation_function c = state_equation_function (snd demo) /\
    regenerated (fst demo) (state_jacobian_equation_function c) /\
    regenerated (fst demo) (input_jacobian_equation_function c) /\
    _initial_condition (snd demo) = [1] /\
    _initial_condition c = [0].
Proof.
  eexists. eexists. split; [vm_compute; reflexivity|].
  split; [reflexivity|]. split; [reflexivity|].
  split; [eexists; split; [reflexivity|simpl; lia]|].
  split; [eexists; split; [reflexivity|simpl; lia]|].
  split; reflexivity.
Qed.

(** ** What the code generator is called with *)

(** Close a goal about what a stored function was generated from. *)
Ltac origin :=
  repeat match goal with
         | |- _ /\ _ => split
         | |- forall _, _ => intro
         | H : ?c = _ |- context [if ?c then _ else _] => rewrite H
         end;
  first [ reflexivity
        | assumption
        | match goal with
          | H : None = Some _ |- _ => discriminate H
          | H : Some _ = Some _ |- _ =>
              injection H as <-;
              first [ reflexivity | eexists; split; reflexivity ]
          end ].

Lemma state_equation_setter_generated (v : pyval) :
  triple no_functions (state_equation_setter v)
    (fun s => generated_from s /\ output_equation_function s = None).
Proof.
  intros [tr s] st' a (H1 & H2 & H3 & H4). destruct s.
  cbn [snd state_equation_function state_jacobian_equation_function
       input_jacobian_equation_function output_equation_function] in *.
  subst. unfold state_equation_setter. unfold_updates.
  destruct v as [|x|l]; run_cases; intros H; try discriminate H;
    injection H as <-; unfold generated_from; cbn; origin.
Qed.

Lemma output_equation_setter_generated (v : pyval) :
  triple (fun s => generated_from s /\ output_equation_function s = None)
    (output_equation_setter v) generated_from.
Proof.
  intros [tr s] st' a [(G1 & G2 & G3 & _) H4]. destruct s.
  cbn [snd output_equation_function] in *. subst.
  unfold output_equation_setter. unfold_updates.
  destruct v as [|x|l]; run_cases; intros H; try discriminate H;
    injection H as <-;
    (split; [exact G1|split; [exact G2|split; [exact G3|]]]);
    cbn; origin.
Qed.

(** C5.  Each numeric function is generated from the expression with the
    constants already substituted, and with a fixed parameter list: time,
    then the state symbols, then the input symbols for the state-equation
    function and for both Jacobian functions; time and the state symbols
    for the output function of a system with state; time and the input
    symbols for the output function of a system without.  Each update
    method makes exactly that one call, whether the generator returns or
    raises; and every function an instance holds when the constructor
    returns was generated this way from what the instance stores. *)
Theorem code_generator_arguments (tr : trace) (s : system) :
  let d := constants_values s in
  let t_x_u := Time :: _state s ++ _inputs s in
  (dim_state s <> 0%nat ->
     invokes update_state_equation_function with_state_equation_function tr s
       t_x_u (SArray (map (subs d) (_state_equation s)))) /\
  (dim_state s <> 0%nat ->
     forall jx, state_jacobian_equation s = Some jx ->
     invokes update_state_jacobian_function
       with_state_jacobian_equation_function tr s
       t_x_u (SMatrix (map (map (subs d)) jx))) /\
  (dim_state s <> 0%nat ->
     forall ju, input_jacobian_equation s = Some ju ->
     invokes update_input_jacobian_function
       with_input_jacobian_equation_function tr s
       t_x_u (SMatrix (map (map (subs d)) ju))) /\
  (dim_output s <> 0%nat ->
     _output_equation s <> PNone ->
     invokes update_output_equation_function with_output_equation_function tr s
       (Time :: (if Nat.eqb (dim_state s) 0 then _inputs s else _state s))
       (subs_value d (_output_equation s))) /\
  (forall k a tr0, construct k a tr = (tr0, Ok s) -> generated_from s).
Proof.
  intros d t_x_u. split; [|split; [|split; [|split]]].
  - intros Hn. apply Nat.eqb_neq in Hn.
    unfold invokes, update_state_equation_function.
    cbv [bind self setattr ret raise fst snd call_code_generator].
    rewrite Hn. cbn [app].
    destruct (generator_raises _ _ _ _); reflexivity.
  - intros Hn jx Hjx. apply Nat.eqb_neq in Hn.
    unfold invokes, update_state_jacobian_function.
    cbv [bind self setattr ret raise fst snd call_code_generator jacobian_body].
    rewrite Hn, Hjx. cbn [app].
    destruct (generator_raises _ _ _ _); reflexivity.
  - intros Hn ju Hju. apply Nat.eqb_neq in Hn.
    unfold invokes, update_input_jacobian_function.
    cbv [bind self setattr ret raise fst snd call_code_generator jacobian_body].
    rewrite Hn, Hju. cbn [app].
    destruct (generator_raises _ _ _ _); reflexivity.
  - intros Hn Hout. apply Nat.eqb_neq in Hn.
    unfold invokes, update_output_equation_function.
    cbv [bind self setattr ret raise fst snd call_code_generator call_subs].
    rewrite Hn.
    destruct (_output_equation s) as [|e|l] eqn:E; [congruence| |];
      destruct (Nat.eqb (dim_state s) 0); cbn [negb app subs_value pyval_exprs];
      destruct (generator_raises _ _ _ _); reflexivity.
  - intros k a tr0 Hc. apply construct_init in Hc.
    assert (T : triple no_functions (__init__ a) generated_from).
    { unfold __init__.
      do 6 (apply triple_keeps_then; [frame_keeps|intros _]).
      eapply triple_bind; [apply state_equation_setter_generated|intros _].
      apply triple_then_keeps; [apply output_equation_setter_generated|].
      intros _. frame_keeps. }
    exact (T (tr, blank k) (tr0, s) tt (no_functions_blank k) Hc).
Qed.

Lemma code_generator_arguments_witness :
  constants_values (snd custom) = [("k", -2)] /\
  invokes update_state_equation_function with_state_equation_function
    (fst custom) (snd custom)
    [Time; sym_x] (SArray [Mul (Num (-2)) sym_x]) /\
  invokes update_state_jacobian_function with_state_jacobian_equation_function
    (fst custom) (snd custom)
    [Time; sym_x]
    (SMatrix [[Add (Mul (Num 0) sym_x) (Mul (Num (-2)) (Num 1))]]) /\
  invokes update_output_equation_function with_output_equation_function
    (fst custom) (snd custom) [Time; sym_x] (SArray [sym_x]) /\
  invokes update_output_equation_function with_output_equation_function
    (fst gain) (snd gain) [Time; sym_u] (SArray [sym_u]) /\
  generated_from (snd custom).
Proof.
  assert (Hd : dim_state (snd custom) <> 0%nat) by (cbn; lia).
  assert (Ho : dim_output (snd custom) <> 0%nat) by (cbn; lia).
  assert (Hg : dim_output (snd gain) <> 0%nat) by (cbn; lia).
  assert (Pd : _output_equation (snd custom) <> PNone) by (cbn; discriminate).
  assert (Pg : _output_equation (snd gain) <> PNone) by (cbn; discriminate).
  destruct (code_generator_arguments (fst custom) (snd custom))
    as (D1 & D2 & _ & D4 & _).
  destruct (code_generator_arguments (fst gain) (snd gain))
    as (_ & _ & _ & G4 & _).
  destruct (code_generator_arguments [] (snd custom)) as (_ & _ & _ & _ & D5).
  split; [reflexivity|].
  split; [exact (D1 Hd)|].
  split; [exact (D2 Hd _ eq_refl)|].
  split; [exact (D4 Ho Pd)|].
  split; [exact (G4 Hg Pg)|].
  exact (D5 DynamicalSystem custom_args (fst custom) eq_refl).
Defined.

(** ** Rejected state equations *)

(** C6.  A state equation other than [None] whose length is not the length
    of the stored state vector is rejected: the assignment raises (a vector
    fails the first assertion, a bare expression has no length at all), and
    the instance and the trace are exactly what they were, so the equation
    is not stored and nothing is generated. *)
Theorem state_equation_length_mismatch (v : pyval) (tr : trace) (s : system) :
  v <> PNone ->
  (forall l, v = PArray l -> length l <> length (_state s)) ->
  state_equation_setter v (tr, s) = ((tr, s), Raise (rejection v)).
Proof.
  intros Hv Hlen. destruct v as [|e|l]; [congruence|reflexivity|].
  specialize (Hlen l eq_refl). apply Nat.eqb_neq in Hlen.
  unfold state_equation_setter. run_method. rewrite Hlen. reflexivity.
Qed.

Lemma state_equation_length_mismatch_witness :
  PArray [sym_x; sym_u] <> PNone /\
  (forall l, PArray [sym_x; sym_u] = PArray l ->
             length l <> length (_state (snd demo))) /\
  state_equation_setter (PArray [sym_x; sym_u]) demo = (demo, Raise AssertionError).
Proof.
  split; [discriminate|]. split.
  - intros l H. injection H as <-. simpl. lia.
  - apply (state_equation_length_mismatch (PArray [sym_x; sym_u]) (fst demo) (snd demo)).
    + discriminate.
    + intros l H. injection H as <-. simpl. lia.
Defined.

(** C7.  A state equation other than [None] that mentions a dynamic symbol
    found neither in the stored state vector nor in the stored input vector
    is rejected: the assignment raises, and the instance and the trace are
    exactly what they were. *)
Theorem state_equation_undeclared_symbol
    (v : pyval) (tr : trace) (s : system) (d : expr) :
  v <> PNone ->
  In d (flat_map find_dynamicsymbols (pyval_exprs v)) ->
  ~ In d (_state s ++ _inputs s) ->
  state_equation_setter v (tr, s) = ((tr, s), Raise (rejection v)).
Proof.
  intros Hv Hin Hout. destruct v as [|e|l]; [congruence|reflexivity|].
  unfold state_equation_setter. run_method.
  destruct (Nat.eqb (length l) (length (_state s))); [|reflexivity].
  simpl in Hin |- *. rewrite (subset_without _ _ d Hin Hout). reflexivity.
Qed.

Lemma state_equation_undeclared_symbol_witness :
  PArray [sym_y] <> PNone /\
  In sym_y (flat_map find_dynamicsymbols (pyval_exprs (PArray [sym_y]))) /\
  ~ In sym_y (_state (snd demo) ++ _inputs (snd demo)) /\
  state_equation_setter (PArray [sym_y]) demo = (demo, Raise AssertionError).
Proof.
  assert (H1 : In sym_y (flat_map find_dynamicsymbols (pyval_exprs (PArray [sym_y]))))
    by (simpl; auto).
  assert (H2 : ~ In sym_y (_state (snd demo) ++ _inputs (snd demo)))
    by (simpl; intros [H|[H|[]]]; discriminate H).
  split; [discriminate|]. split; [exact H1|]. split; [exact H2|].
  apply (state_equation_undeclared_symbol (PArray [sym_y]) (fst demo) (snd demo) sym_y);
    [discriminate|exact H1|exact H2].
Defined.

(** ** The default output equation *)










(** ** MemorylessSystem keeps its state empty *)

Lemma memoryless_state_setter (v : pyval) : keeps memoryless (state_setter v).
Proof.
  intros [tr s] (Hc & Hs & Hd). destruct s. cbn [snd cls _state dim_state] in *.
  subst. unfold state_setter, MemorylessSystem_state_setter.
  destruct v; reduce_step; repeat split.
Qed.

Lemma memoryless_input_setter (v : pyval) : keeps memoryless (input_setter v).
Proof. unfold input_setter. repeat keeps_step; other_attribute. Qed.

Lemma memoryless_initial_condition_setter (v : option (list Z)) :
  keeps memoryless (initial_condition_setter v).
Proof.
  unfold initial_condition_setter. repeat keeps_step; other_attribute.
Qed.

Lemma memoryless_state_equation_setter (v : pyval) :
  keeps memoryless (state_equation_setter v).
Proof.
  unfold state_equation_setter. unfold_updates.
  repeat keeps_step; other_attribute.
Qed.

Lemma memoryless_output_equation_setter (v : pyval) :
  keeps memoryless (output_equation_setter v).
Proof.
  unfold output_equation_setter. unfold_updates.
  repeat keeps_step; other_attribute.
Qed.

Lemma memoryless_init (a : init_args) : keeps memoryless (__init__ a).
Proof.
  unfold __init__.
  repeat match goal with
         | |- keeps _ (bind _ _) => apply keeps_bind; [|intro]
         end;
    first [ apply memoryless_state_setter
          | apply memoryless_input_setter
          | apply memoryless_initial_condition_setter
          | apply memoryless_state_equation_setter
          | apply memoryless_output_equation_setter
          | other_attribute ].
Qed.

Lemma memoryless_perform (o : operation) : keeps memoryless (perform o).
Proof.
  destruct o; cbn [perform].
  - apply memoryless_state_setter.
  - apply memoryless_input_setter.
  - apply memoryless_state_equation_setter.
  - apply memoryless_output_equation_setter.
  - apply memoryless_initial_condition_setter.
  - apply keeps_ret.
  - unfold copy. repeat keeps_step.
Qed.

Lemma memoryless_perform_all (os : list operation) (st : trace * system) :
  memoryless (snd st) -> memoryless (snd (perform_all os st)).
Proof.
  revert st. induction os as [|o os IH]; intros st H; cbn [perform_all].
  - exact H.
  - apply IH, memoryless_perform, H.
Qed.

Lemma memoryless_construct (a : init_args) (tr tr0 : trace) (s0 : system) :
  construct MemorylessSystem a tr = (tr0, Ok s0) -> memoryless s0.
Proof.
  unfold construct, new. cbn [fst snd].
  pose proof (memoryless_init a (tr, blank MemorylessSystem)) as H.
  destruct (__init__ a (tr, blank MemorylessSystem)) as [[tr1 obj] [u|e]];
    intros E; [|discriminate E].
  injection E as _ <-. apply H. repeat split.
Qed.

(** C9.  On a memoryless system, however it was constructed and whatever
    operations have been performed on it since, returned or raised, the
    state vector is empty and [dim_state] is zero; and assigning it a state
    other than [None], hence any non-empty state vector, raises
    [ValueError] and changes nothing. *)
Theorem memoryless_state_stays_empty
    (a : init_args) (tr tr0 : trace) (s0 : system)
    (os : list operation) (v : pyval) :
  construct MemorylessSystem a tr = (tr0, Ok s0) ->
  v <> PNone ->
  let st := perform_all os (tr0, s0) in
  _state (snd st) = [] /\
  dim_state (snd st) = 0%nat /\
  state_setter v st = (st, Raise ValueError).
Proof.
  intros Hc Hv st.
  assert (H : memoryless (snd st))
    by (apply memoryless_perform_all; cbn [snd];
        apply (memoryless_construct a tr tr0), Hc).
  destruct H as (Hk & Hs & Hd). repeat split; [exact Hs|exact Hd|].
  destruct st as [tr1 s1]. cbn [snd] in Hk. destruct s1. cbn [cls] in Hk.
  subst. unfold state_setter, MemorylessSystem_state_setter.
  destruct v; [congruence| |]; reflexivity.
Qed.

Lemma memoryless_state_stays_empty_witness :
  let os := [SetInput (PArray [sym_u; sym_y]);
             SetState (PArray [sym_x]);
             SetOutputEquation (PArray [sym_x]);
             SetStateEquation (PArray [sym_x]);
             Copy;
             SetOutputEquation (PArray [sym_y])] in
  let st := perform_all os gain in
  construct MemorylessSystem gain_args [] = (fst gain, Ok (snd gain)) /\
  PArray [sym_x] <> PNone /\
  _state (snd st) = [] /\
  dim_state (snd st) = 0%nat /\
  state_setter (PArray [sym_x]) st = (st, Raise ValueError).
Proof.
  intros os st.
  split; [reflexivity|]. split; [discriminate|].
  apply (memoryless_state_stays_empty gain_args [] (fst gain) (snd gain) os
           (PArray [sym_x])); [reflexivity|discriminate].
Defined.

(** ** Dimensions

    On every instance a client can hold, [dim_state] and [dim_input] are
    the lengths of the stored state and input vectors. *)

Lemma dims_agree_state_setter (v : pyval) : keeps dims_agree (state_setter v).
Proof.
  intros [tr s] [Hs Hi]. destruct s. cbn [snd dim_state _state dim_input _inputs] in *.
  unfold state_setter, DynamicalSystem_state_setter, MemorylessSystem_state_setter.
  destruct cls0, v; reduce_step; split; first [reflexivity | assumption].
Qed.

Lemma dims_agree_input_setter (v : pyval) : keeps dims_agree (input_setter v).
Proof.
  intros [tr s] [Hs Hi]. destruct s. cbn [snd dim_state _state dim_input _inputs] in *.
  unfold input_setter.
  destruct v; reduce_step; split; first [reflexivity | assumption].
Qed.

Lemma dims_agree_perform (o : operation) : keeps dims_agree (perform o).
Proof.
  destruct o; cbn [perform].
  - apply dims_agree_state_setter.
  - apply dims_agree_input_setter.
  - unfold state_equation_setter. unfold_updates.
    repeat keeps_step; other_attribute.
  - unfold output_equation_setter. unfold_updates.
    repeat keeps_step; other_attribute.
  - unfold initial_condition_setter. repeat keeps_step; other_attribute.
  - apply keeps_ret.
  - unfold copy. repeat keeps_step.
Qed.

Lemma dims_agree_init (a : init_args) : keeps dims_agree (__init__ a).
Proof.
  unfold __init__.
  repeat match goal with
         | |- keeps _ (bind _ _) => apply keeps_bind; [|intro]
         end;
    first [ apply dims_agree_state_setter
          | apply dims_agree_input_setter
          | apply (dims_agree_perform (SetInitialCondition _))
          | apply (dims_agree_perform (SetStateEquation _))
          | apply (dims_agree_perform (SetOutputEquation _))
          | other_attribute ].
Qed.

(** X1.  On an instance the constructor returned, after any sequence of
    operations, each of which may have returned or raised, [dim_state] is
    the length of the stored state vector and [dim_input] the length of the
    stored input vector. *)
Lemma constructed_dims_agree
    (k : klass) (a : init_args) (tr tr0 : trace) (s0 : system)
    (os : list operation) :
  construct k a tr = (tr0, Ok s0) ->
  dims_agree (snd (perform_all os (tr0, s0))).
Proof.
  intros Hc.
  assert (H0 : dims_agree s0).
  { revert Hc. unfold construct, new. cbn [fst snd].
    pose proof (dims_agree_init a (tr, blank k)) as H.
    destruct (__init__ a (tr, blank k)) as [[tr1 obj] [u|e]];
      intros E; [|discriminate E].
    injection E as _ <-. apply H. split; reflexivity. }
  clear Hc. generalize (tr0, s0) (H0 : dims_agree (snd (tr0, s0))).
  clear. induction os as [|o os IH]; intros st H; cbn [perform_all].
  - exact H.
  - apply IH, dims_agree_perform, H.
Qed.

(** ** Equilibrium points *)

(** C10.  [equilibrium_points] does not look at its [input_] argument:
    whatever is passed, the result is what the solver returns for the
    stored state equation solved for the stored state vector. *)
Theorem equilibrium_points_ignores_input
    (Solutions : Type) (sp_solve : list expr -> list expr -> Solutions)
    (s : system) (input1 input2 : pyval) :
  equilibrium_points Solutions sp_solve s input1
    = equilibrium_points Solutions sp_solve s input2 /\
  equilibrium_points Solutions sp_solve s input1
    = sp_solve (_state_equation s) (_state s).
Proof.
  split; reflexivity.
Qed.

(** * Further properties *)

(** ** What the constructor establishes *)

Lemma constructed_dims_agree_witness :
  let os := [SetState (PArray [sym_x; sym_y]); SetInput PNone;
             SetStateEquation (PArray [sym_x]); Copy] in
  construct DynamicalSystem demo_args [] = (fst demo, Ok (snd demo)) /\
  dim_state (snd (perform_all os demo)) = 2%nat /\
  dims_agree (snd (perform_all os demo)).
Proof.
  intros os. split; [reflexivity|]. split; [reflexivity|].
  exact (constructed_dims_agree DynamicalSystem demo_args [] (fst demo)
           (snd demo) os eq_refl).
Defined.

Lemma initial_condition_setter_ok (v : option (list Z)) :
  triple anything (initial_condition_setter v) (initial_condition_ok v).
Proof.
  intros [tr s] st' a _. destruct s. unfold initial_condition_setter.
  destruct v as [ic|]; run_cases; intros H; try discriminate H;
    injection H as <-; split; cbn;
    first [reflexivity | apply Nat.eqb_eq; assumption | apply repeat_length].
Qed.

(** X2.  An instance that the constructor returns holds the initial
    condition it was given, or, when none was given, the zero vector; in
    both cases its length is [dim_state], the length of the state vector. *)
Theorem constructed_initial_condition
    (k : klass) (a : init_args) (tr tr0 : trace) (s0 : system) :
  construct k a tr = (tr0, Ok s0) ->
  _initial_condition s0
    = match a_initial_condition a with
      | Some ic => ic
      | None => repeat 0 (length (_state s0))
      end /\
  length (_initial_condition s0) = dim_state s0 /\
  dim_state s0 = length (_state s0).
Proof.
  intros Hc. apply construct_init in Hc.
  assert (D : dims_agree s0).
  { pose proof (dims_agree_init a (tr, blank k)) as H.
    rewrite Hc in H. apply H. split; reflexivity. }
  assert (T : triple anything (__init__ a)
                (initial_condition_ok (a_initial_condition a))).
  { unfold __init__.
    apply triple_skip; intros _. apply triple_skip; intros _.
    apply triple_then_keeps; [apply initial_condition_setter_ok|].
    intros _. frame_keeps. }
  destruct (T (tr, blank k) (tr0, s0) tt I Hc) as [T1 T2].
  destruct D as [D _]. cbn [snd] in T1, T2.
  rewrite <- D. repeat split; assumption.
Qed.

Lemma constructed_initial_condition_witness :
  construct DynamicalSystem demo_args [] = (fst demo, Ok (snd demo)) /\
  _initial_condition (snd demo) = [1] /\
  length (_initial_condition (snd demo)) = dim_state (snd demo) /\
  dim_state (snd demo) = length (_state (snd demo)).
Proof.
  split; [reflexivity|].
  exact (constructed_initial_condition DynamicalSystem demo_args []
           (fst demo) (snd demo) eq_refl).
Defined.

Lemma state_equation_setter_valid (v : pyval) :
  triple anything (state_equation_setter v) state_equation_valid.
Proof.
  intros [tr s] st' a _. destruct s. unfold state_equation_setter.
  unfold_updates.
  destruct v as [|x|l]; run_cases; intros H; try discriminate H;
    injection H as <-; unfold state_equation_valid; cbn;
    repeat split;
    first [ left; reflexivity
          | right; apply Nat.eqb_eq; assumption
          | intros e []
          | apply subset_incl; assumption ].
Qed.

Lemma output_equation_setter_valid (v : pyval) :
  triple anything (output_equation_setter v) output_equation_valid.
Proof.
  intros [tr s] st' a _. destruct s. unfold output_equation_setter.
  unfold_updates.
  destruct v as [|x|l]; run_cases; intros H; try discriminate H;
    injection H as <-; unfold output_equation_valid; cbn;
    repeat match goal with
           | |- _ /\ _ => split
           | H : ?c = _ |- context [if ?c then _ else _] => rewrite H
           end;
    first [ discriminate
          | reflexivity
          | apply subset_incl; assumption ].
Qed.

(** X3.  On an instance that the constructor returns, the stored equations
    satisfy what their setters check.  The state equation is empty or has
    as many components as the state vector, mentions no dynamic symbol
    outside the state and input vectors and no plain symbol outside the
    constants and time.  The output equation is present, [dim_output] is
    its length (1 for a bare expression), its plain symbols are constants
    or time, and its dynamic symbols are state symbols on a system with
    state and input symbols on a system without. *)
Theorem constructed_equations_valid
    (k : klass) (a : init_args) (tr tr0 : trace) (s0 : system) :
  construct k a tr = (tr0, Ok s0) ->
  state_equation_valid s0 /\ output_equation_valid s0.
Proof.
  intros Hc. apply construct_init in Hc. split.
  - assert (T : triple anything (__init__ a) state_equation_valid).
    { unfold __init__. do 6 (apply triple_skip; intros _).
      apply triple_then_keeps; [apply state_equation_setter_valid|].
      intros _. frame_keeps. }
    exact (T (tr, blank k) (tr0, s0) tt I Hc).
  - assert (T : triple anything (__init__ a) output_equation_valid).
    { unfold __init__. do 7 (apply triple_skip; intros _).
      apply triple_then_keeps; [apply output_equation_setter_valid|].
      intros _. frame_keeps. }
    exact (T (tr, blank k) (tr0, s0) tt I Hc).
Qed.

Lemma constructed_equations_valid_witness :
  construct DynamicalSystem demo_args [] = (fst demo, Ok (snd demo)) /\
  state_equation_valid (snd demo) /\ output_equation_valid (snd demo).
Proof.
  split; [reflexivity|].
  exact (constructed_equations_valid DynamicalSystem demo_args []
           (fst demo) (snd demo) eq_refl).
Defined.

(** Close a goal about the presence of a function from the tests the run
    went through. *)
Ltac presence :=
  repeat match goal with
         | |- _ /\ _ => split
         | |- _ -> _ => intro
         end;
  first [ reflexivity
        | assumption
        | eexists; reflexivity
        | discriminate
        | congruence
        | exfalso;
          match goal with
          | Hd : ?n = 0%nat, Hb : (?n =? 0)%nat = false |- _ =>
              apply Nat.eqb_neq in Hb; contradiction
          | Hd : ?n <> 0%nat, Hb : (?n =? 0)%nat = true |- _ =>
              apply Nat.eqb_eq in Hb; contradiction
          end ].

Lemma state_equation_setter_functions (v : pyval) :
  triple no_functions (state_equation_setter v)
    (fun s => state_functions_present s /\ output_equation_function s = None).
Proof.
  intros [tr s] st' a (H1 & H2 & H3 & H4). destruct s.
  cbn [snd state_equation_function state_jacobian_equation_function
       input_jacobian_equation_function output_equation_function] in *.
  subst. unfold state_equation_setter. unfold_updates.
  destruct v as [|x|l]; run_cases; intros H; try discriminate H;
    injection H as <-; unfold state_functions_present, has; cbn;
    presence.
Qed.

Lemma output_equation_setter_functions (v : pyval) :
  triple (fun s => state_functions_present s /\ output_equation_function s = None)
    (output_equation_setter v)
    (fun s => state_functions_present s /\ output_function_present s).
Proof.
  intros [tr s] st' a [H1 H2]. destruct s.
  cbn [snd output_equation_function] in *. subst.
  unfold output_equation_setter. unfold_updates.
  destruct v as [|x|l]; run_cases; intros H; try discriminate H;
    injection H as <-; (split; [exact H1|]);
    unfold output_function_present, has; cbn;
    presence.
Qed.

(** X4.  On an instance that the constructor returns, the state-equation
    function and both Jacobian functions exist if the system has state,
    whether or not a state equation was given, and none of them exists if
    it has not; the output function exists exactly when [dim_output] is
    not zero. *)
Theorem constructed_functions_present
    (k : klass) (a : init_args) (tr tr0 : trace) (s0 : system) :
  construct k a tr = (tr0, Ok s0) ->
  state_functions_present s0 /\ output_function_present s0.
Proof.
  intros Hc. apply construct_init in Hc.
  assert (T : triple no_functions (__init__ a)
                (fun s => state_functions_present s /\ output_function_present s)).
  { unfold __init__.
    do 6 (apply triple_keeps_then; [frame_keeps|intros _]).
    eapply triple_bind; [apply state_equation_setter_functions|intros _].
    apply triple_then_keeps; [apply output_equation_setter_functions|].
    intros _. frame_keeps. }
  exact (T (tr, blank k) (tr0, s0) tt (no_functions_blank k) Hc).
Qed.

Lemma constructed_functions_present_witness :
  construct DynamicalSystem demo_args [] = (fst demo, Ok (snd demo)) /\
  construct MemorylessSystem gain_args [] = (fst gain, Ok (snd gain)) /\
  (state_functions_present (snd demo) /\ output_function_present (snd demo)) /\
  (state_functions_present (snd gain) /\ output_function_present (snd gain)).
Proof.
  split; [reflexivity|]. split; [reflexivity|]. split.
  - exact (constructed_functions_present DynamicalSystem demo_args []
             (fst demo) (snd demo) eq_refl).
  - exact (constructed_functions_present MemorylessSystem gain_args []
             (fst gain) (snd gain) eq_refl).
Defined.

(** ** The code generator and its keyword arguments *)

Lemma dict_get_app {V : Type} (k : string) (d1 d2 : list (string * V)) :
  dict_get k (d1 ++ d2)
    = match dict_get k d1 with
      | Some v => Some v
      | None => dict_get k d2
      end.
Proof.
  induction d1 as [|[k1 v1] d1 IH]; [reflexivity|].
  cbn. destruct (String.eqb k k1); [reflexivity|exact IH].
Qed.

(** Looking a key up after [update]: the new entry if there is one, the old
    entry otherwise. *)
Lemma dict_get_update {V : Type} (k : string) (d d' : list (string * V)) :
  dict_get k (dict_update d d')
    = match dict_get k d' with
      | Some v => Some v
      | None => dict_get k d
      end.
Proof.
  unfold dict_update. rewrite dict_get_app.
  destruct (dict_get k d') as [v|] eqn:E; [reflexivity|].
  induction d as [|[k1 v1] d IH]; [reflexivity|].
  cbn [filter fst]. destruct (dict_get k1 d') as [v'|] eqn:E1.
  - cbn [dict_get]. destruct (String.eqb k k1) eqn:Ek; [|exact IH].
    apply String.eqb_eq in Ek. subst. congruence.
  - cbn [dict_get]. destruct (String.eqb k k1); [reflexivity|exact IH].
Qed.

(** Close a goal about who made a stored function. *)
Ltac maker :=
  repeat match goal with
         | |- _ /\ _ => split
         | |- forall _, _ => intro
         end;
  first [ reflexivity
        | assumption
        | match goal with
          | H : None = Some _ |- _ => discriminate H
          | H : Some _ = Some _ |- _ => injection H as <-; reflexivity
          end ].

Lemma state_equation_setter_made_by (a : init_args) (v : pyval) :
  triple (fun s => no_functions s /\ generator_chosen a s)
    (state_equation_setter v)
    (fun s => functions_made_by_generator s /\ generator_chosen a s /\
              output_equation_function s = None).
Proof.
  intros [tr s] st' u [(H1 & H2 & H3 & H4) [G1 G2]]. destruct s.
  cbn [snd state_equation_function state_jacobian_equation_function
       input_jacobian_equation_function output_equation_function
       code_generator code_generator_args] in *.
  subst. unfold state_equation_setter. unfold_updates.
  destruct v as [|x|l]; run_cases; intros H; try discriminate H;
    injection H as <-;
    unfold functions_made_by_generator, generator_chosen, made_by; cbn;
    maker.
Qed.

Lemma output_equation_setter_made_by (a : init_args) (v : pyval) :
  triple (fun s => functions_made_by_generator s /\ generator_chosen a s /\
                   output_equation_function s = None)
    (output_equation_setter v)
    (fun s => functions_made_by_generator s /\ generator_chosen a s).
Proof.
  intros [tr s] st' u [(M1 & M2 & M3 & _) [[G1 G2] H4]]. destruct s.
  cbn [snd output_equation_function code_generator code_generator_args] in *.
  subst. unfold output_equation_setter. unfold_updates.
  destruct v as [|x|l]; run_cases; intros H; try discriminate H;
    injection H as <-;
    (split; [|split; reflexivity]);
    (split; [exact M1|split; [exact M2|split; [exact M3|]]]);
    unfold made_by; cbn; maker.
Qed.

(** X5.  An instance that the constructor returns uses the code generator
    it was given, or the default one; its keyword arguments are the
    defaults overridden, key by key, by those it was given; and every
    numeric function it holds was made by that generator with those
    keyword arguments. *)
Theorem constructed_generator
    (k : klass) (a : init_args) (tr tr0 : trace) (s0 : system) :
  construct k a tr = (tr0, Ok s0) ->
  code_generator s0 = match a_code_generator a with
                      | Some g => g
                      | None => DEFAULT_CODE_GENERATOR
                      end /\
  (forall key,
     dict_get key (code_generator_args s0)
       = match dict_get key (a_code_generator_args a) with
         | Some v => Some v
         | None => dict_get key DEFAULT_CODE_GENERATOR_ARGS
         end) /\
  functions_made_by_generator s0.
Proof.
  intros Hc. apply construct_init in Hc.
  assert (T : triple no_functions (__init__ a)
                (fun s => functions_made_by_generator s /\ generator_chosen a s)).
  { unfold __init__.
    do 4 (apply triple_keeps_then; [frame_keeps|intros _]).
    eapply triple_bind.
    { apply (triple_setattr no_functions
               (fun s => no_functions s /\
                         code_generator s = match a_code_generator a with
                                            | Some g => g
                                            | None => DEFAULT_CODE_GENERATOR
                                            end)).
      intros s H. destruct s. split; [exact H|reflexivity]. }
    intros _. eapply triple_bind.
    { apply (triple_setattr _ (fun s => no_functions s /\ generator_chosen a s)).
      intros s [H G]. destruct s. split; [exact H|]. split; [exact G|reflexivity]. }
    intros _. eapply triple_bind; [apply state_equation_setter_made_by|intros _].
    apply triple_then_keeps; [apply output_equation_setter_made_by|].
    intros _. frame_keeps. }
  destruct (T (tr, blank k) (tr0, s0) tt (no_functions_blank k) Hc)
    as [Hm [G1 G2]].
  cbn [snd] in *. split; [exact G1|]. split; [|exact Hm].
  intros key. rewrite G2. apply dict_get_update.
Qed.

Lemma constructed_generator_witness :
  construct DynamicalSystem custom_args [] = (fst custom, Ok (snd custom)) /\
  code_generator (snd custom) = theano_function /\
  dict_get "modules" (code_generator_args (snd custom)) = Some "math" /\
  dict_get "cse" (code_generator_args (snd custom)) = Some "yes" /\
  functions_made_by_generator (snd custom).
Proof.
  split; [reflexivity|].
  destruct (constructed_generator DynamicalSystem custom_args []
              (fst custom) (snd custom) eq_refl) as (G & K & F).
  split; [exact G|]. split; [exact (K "modules")|].
  split; [exact (K "cse")|exact F].
Defined.

(** ** Accepted and rejected assignments *)

(** X6.  On a system with state, an accepted state-equation assignment
    makes exactly five external calls, in this order: the code generator
    for the state equation, [grad] with respect to the state, the code
    generator for the state Jacobian, [grad] with respect to the input, the
    code generator for the input Jacobian.  All three functions are new
    objects with the parameters time, state, input, and bodies the
    equation and its two Jacobians with the constants substituted.  The
    output equation, [dim_output] and the output function are not
    touched. *)
Theorem state_equation_cascade
    (v : pyval) (tr tr' : trace) (s s' : system) :
  dim_state s <> 0%nat ->
  state_equation_setter v (tr, s) = ((tr', s'), Ok tt) ->
  let eq := pyval_exprs v in
  let d := constants_values s in
  let params := Time :: _state s ++ _inputs s in
  exists f1 f2 f3,
    tr' = ([EvCodegen f3; EvGrad eq (_inputs s);
            EvCodegen f2; EvGrad eq (_state s);
            EvCodegen f1] ++ tr)%list /\
    _state_equation s' = eq /\
    state_equation_function s' = Some f1 /\
    state_jacobian_equation s' = Some (grad eq (_state s)) /\
    state_jacobian_equation_function s' = Some f2 /\
    input_jacobian_equation s' = Some (grad eq (_inputs s)) /\
    input_jacobian_equation_function s' = Some f3 /\
    (fid f1 = length tr /\ fid f2 = 2 + length tr /\ fid f3 = 4 + length tr)%nat /\
    (fargs f1 = params /\ fargs f2 = params /\ fargs f3 = params) /\
    fbody f1 = SArray (map (subs d) eq) /\
    fbody f2 = SMatrix (map (map (subs d)) (grad eq (_state s))) /\
    fbody f3 = SMatrix (map (map (subs d)) (grad eq (_inputs s))) /\
    _output_equation s' = _output_equation s /\
    dim_output s' = dim_output s /\
    output_equation_function s' = output_equation_function s.
Proof.
  destruct s. cbn [dim_state]. intros Hd. apply Nat.eqb_neq in Hd.
  unfold state_equation_setter. unfold_updates.
  destruct v as [|x|l]; run_cases; intros H; try discriminate H;
    try congruence;
    injection H as <- <-; cbn;
    do 3 eexists; (split; [reflexivity|]); repeat split; reflexivity.
Qed.

Lemma state_equation_cascade_witness :
  dim_state (snd demo) <> 0%nat /\
  exists tr' s',
    state_equation_setter (PArray [Mul (Num 3) sym_u]) demo = ((tr', s'), Ok tt) /\
    length tr' = (5 + length (fst demo))%nat /\
    state_jacobian_equation s' = Some (grad [Mul (Num 3) sym_u] [sym_x]).
Proof.
  assert (Hd : dim_state (snd demo) <> 0%nat) by (cbn; lia).
  split; [exact Hd|].
  destruct (state_equation_setter (PArray [Mul (Num 3) sym_u]) demo)
    as [[tr' s'] r] eqn:E.
  assert (Hr : r = Ok tt) by (vm_compute in E; injection E as _ _ <-; reflexivity).
  subst r.
  destruct (state_equation_cascade (PArray [Mul (Num 3) sym_u])
              (fst demo) tr' (snd demo) s' Hd E)
    as (f1 & f2 & f3 & Htr & _ & _ & Hj & _).
  exists tr', s'. split; [reflexivity|]. split; [|exact Hj].
  rewrite Htr. reflexivity.
Defined.

(** X7.  Assigning the output equation never calls [grad] and writes
    nothing but [dim_output], the stored output equation and the output
    function.  If it raises without having made an external call, the
    exception is [AssertionError] and only [dim_output] was written.  If it
    raises after calling the code generator, the exception is the
    generator's, and [dim_output] and the output equation were written but
    the output function was not.  If it returns, the stored equation is
    the assigned one (the state vector for [None]; a bare expression stays
    bare) and [dim_output] its length; when that length is not zero the
    code generator was called exactly once and the output function is the
    new object; when it is zero no call was made and the previous output
    function stays in place. *)
Theorem output_equation_assignment
    (v : pyval) (tr tr' : trace) (s s' : system) (r : outcome unit) :
  output_equation_setter v (tr, s) = ((tr', s'), r) ->
  let oe := match v with
            | PNone => PArray (_state s)
            | _ => v
            end in
  let n := output_length v s in
  grad_calls tr' = grad_calls tr /\
  with_dim_output (dim_output s)
    (with_output_equation (_output_equation s)
       (with_output_equation_function (output_equation_function s) s')) = s /\
  match r with
  | Raise e =>
      (tr' = tr /\ e = AssertionError /\ s' = with_dim_output n s) \/
      (exists c, tr' = EvRaise c e :: tr /\ n <> 0%nat /\
                 s' = with_output_equation oe (with_dim_output n s))
  | Ok _ =>
      _output_equation s' = oe /\
      dim_output s' = n /\
      if Nat.eqb n 0 then
        tr' = tr /\ output_equation_function s' = output_equation_function s
      else
        exists f, tr' = EvCodegen f :: tr /\
                  output_equation_function s' = Some f /\
                  fid f = length tr
  end.
Proof.
  destruct s. unfold output_equation_setter, output_length. unfold_updates.
  destruct v as [|x|l]; run_cases; intros H;
    injection H as <- <- <-; cbn;
    repeat match goal with
           | H : ?c = _ |- context [if ?c then _ else _] => rewrite H
           end;
    (split; [reflexivity|]); (split; [reflexivity|]);
    first [ solve [left; repeat split; reflexivity]
          | solve [right; eexists; (split; [reflexivity|]);
                   split; [first [discriminate | apply Nat.eqb_neq; assumption]
                          |reflexivity]]
          | repeat match goal with
                   | |- _ /\ _ => split
                   | |- exists _, _ => eexists
                   end; reflexivity ].
Qed.

Lemma output_equation_assignment_witness :
  (exists tr' s',
     output_equation_setter (PArray []) demo = ((tr', s'), Ok tt) /\
     dim_output s' = 0%nat /\
     tr' = fst demo /\
     output_equation_function s' = output_equation_function (snd demo)) /\
  (exists c s',
     output_equation_setter (PExpr Time) fussy
       = ((EvRaise c (Exception "unsupported") :: fst fussy, s'),
          Raise (Exception "unsupported")) /\
     _output_equation s' = PExpr Time /\
     dim_output s' = 1%nat /\
     output_equation_function s' = output_equation_function (snd fussy)).
Proof.
  split.
  - destruct (output_equation_setter (PArray []) demo) as [[tr' s'] r] eqn:E.
    pose proof (output_equation_assignment (PArray []) (fst demo) tr'
                  (snd demo) s' r E) as (_ & _ & H).
    assert (Hr : r = Ok tt)
      by (vm_compute in E; injection E as _ _ <-; reflexivity).
    subst r. destruct H as (_ & Hd & Ht & Hf).
    exists tr', s'. split; [reflexivity|]. split; [exact Hd|].
    split; [exact Ht|exact Hf].
  - destruct (output_equation_setter (PExpr Time) fussy) as [[tr' s'] r] eqn:E.
    pose proof (output_equation_assignment (PExpr Time) (fst fussy) tr'
                  (snd fussy) s' r E) as (_ & _ & H).
    assert (Hr : r = Raise (Exception "unsupported"))
      by (vm_compute in E; injection E as _ _ <-; reflexivity).
    subst r. destruct H as [(Ht & He & _)|(c & Ht & _ & Hs)];
      [discriminate He|].
    exists c, s'. subst tr'. split; [reflexivity|].
    subst s'. repeat split.
Defined.

(** X8.  A state-equation assignment is rejected, which is a raise before
    any external call, exactly when the value is a bare expression or a
    vector that fails one of the three checks (length, dynamic symbols,
    plain symbols): the exception is [TypeError] for a bare expression and
    [AssertionError] for a vector, and the instance and the trace are what
    they were.  When the checks pass, the equation is stored before any
    external call is made: if the assignment raises all the same, a call
    was made and the new equation stays stored. *)
Theorem state_equation_assignment_outcome
    (v : pyval) (tr : trace) (s : system) :
  (state_equation_acceptable v s = false ->
   state_equation_setter v (tr, s) = ((tr, s), Raise (rejection v))) /\
  (state_equation_acceptable v s = true ->
   forall tr' s' e,
     state_equation_setter v (tr, s) = ((tr', s'), Raise e) ->
     tr' <> tr /\
     _state_equation s' = pyval_exprs v /\
     _state s' = _state s /\ _inputs s' = _inputs s /\
     constants_values s' = constants_values s).
Proof.
  destruct s. unfold state_equation_acceptable, state_equation_setter.
  unfold_updates. cbn [_state _inputs]. split.
  - destruct v as [|x|l]; [discriminate | reflexivity |].
    cbv [pyval_exprs].
    destruct (Nat.eqb (length l) (length _state0)) eqn:E1;
      [|intros _; reduce_tests; rewrite E1; reflexivity].
    destruct (subset (flat_map find_dynamicsymbols l) (_state0 ++ _inputs0))
      eqn:E2;
      [|intros _; reduce_tests; rewrite E1; reduce_tests; rewrite E2;
        reflexivity].
    cbn [andb]. intros E3. reduce_tests. rewrite E1. reduce_tests.
    rewrite E2. reduce_tests. rewrite E3. reflexivity.
  - destruct v as [|x|l]; [| discriminate |].
    + intros _ tr' s' e. run_cases; intros H; try discriminate H;
        injection H as <- <- <-; cbn;
        (split; [intros Ht; absurd_trace|]); repeat split.
    + cbv [pyval_exprs]. intros Hacc.
      apply andb_prop in Hacc as [Hacc E3].
      apply andb_prop in Hacc as [E1 E2].
      intros tr' s' e. run_cases; intros H; try discriminate H;
        injection H as <- <- <-; cbn;
        (split; [intros Ht; absurd_trace|]); repeat split.
Qed.

Lemma state_equation_assignment_outcome_witness :
  state_equation_acceptable (PArray [sym_y]) (snd demo) = false /\
  state_equation_setter (PArray [sym_y]) demo = (demo, Raise AssertionError) /\
  state_equation_acceptable (PArray [Time]) (snd fussy) = true /\
  exists tr' s',
    state_equation_setter (PArray [Time]) fussy
      = ((tr', s'), Raise (Exception "unsupported")) /\
    tr' <> fst fussy /\
    _state_equation (snd fussy) = [Mul (Num (-1)) sym_x] /\
    _state_equation s' = [Time] /\
    state_equation_function s' = state_equation_function (snd fussy).
Proof.
  destruct (state_equation_assignment_outcome (PArray [sym_y]) (fst demo) (snd demo))
    as [D _].
  destruct (state_equation_assignment_outcome (PArray [Time]) (fst fussy) (snd fussy))
    as [_ F].
  split; [reflexivity|]. split; [exact (D eq_refl)|]. split; [reflexivity|].
  destruct (state_equation_setter (PArray [Time]) fussy) as [[tr' s'] r] eqn:E.
  assert (Hr : r = Raise (Exception "unsupported"))
    by (vm_compute in E; injection E as _ _ <-; reflexivity).
  subst r. destruct (F eq_refl tr' s' _ E) as (Ht & He & _).
  exists tr', s'. split; [reflexivity|]. split; [exact Ht|].
  split; [reflexivity|]. split; [exact He|].
  vm_compute in E. injection E as _ <-. reflexivity.
Defined.

(** ** Memoryless systems *)

(** X9.  The constructor of a memoryless system raises [ValueError] when
    it is given any state other than [None], the empty vector included, and
    [AssertionError] when it is given no state but a state equation with at
    least one component.  In both cases nothing has been generated. *)
Theorem memoryless_construction_rejects (a : init_args) (tr : trace) :
  (a_state a <> PNone ->
   construct MemorylessSystem a tr = (tr, Raise ValueError)) /\
  (a_state a = PNone ->
   a_initial_condition a = None ->
   forall e l, a_state_equation a = PArray (e :: l) ->
   construct MemorylessSystem a tr = (tr, Raise AssertionError)).
Proof.
  destruct a. cbn [a_state a_initial_condition a_state_equation]. split.
  - intros Hs. unfold construct, new, __init__, state_setter,
      MemorylessSystem_state_setter.
    destruct a_state0; [congruence| |]; reflexivity.
  - intros -> -> e l ->. unfold construct, new, __init__, state_setter,
      MemorylessSystem_state_setter, initial_condition_setter, input_setter,
      state_equation_setter.
    destruct a_input_0; reflexivity.
Qed.

Lemma memoryless_construction_rejects_witness :
  construct MemorylessSystem gain_with_state_args [] = ([], Raise ValueError) /\
  construct MemorylessSystem gain_with_state_equation_args []
    = ([], Raise AssertionError).
Proof.
  destruct (memoryless_construction_rejects gain_with_state_args []) as [H1 _].
  destruct (memoryless_construction_rejects gain_with_state_equation_args [])
    as [_ H2].
  split.
  - apply H1. discriminate.
  - apply (H2 eq_refl eq_refl sym_u []). reflexivity.
Defined.

Lemma memoryless_functions_state_setter (v : pyval) :
  keeps memoryless_without_state_functions (state_setter v).
Proof.
  intros [tr s] ((Hc & Hs & Hd) & F1 & F2 & F3). destruct s.
  cbn [snd cls _state dim_state state_equation_function
       state_jacobian_equation_function input_jacobian_equation_function] in *.
  subst. unfold state_setter, MemorylessSystem_state_setter.
  destruct v; reduce_step; repeat split.
Qed.

Lemma memoryless_functions_state_equation_setter (v : pyval) :
  keeps memoryless_without_state_functions (state_equation_setter v).
Proof.
  intros [tr s] ((Hc & Hs & Hd) & F1 & F2 & F3). destruct s.
  cbn [snd cls _state dim_state state_equation_function
       state_jacobian_equation_function input_jacobian_equation_function] in *.
  subst. unfold state_equation_setter. unfold_updates.
  destruct v; run_cases; repeat split.
Qed.

Lemma memoryless_functions_perform (o : operation) :
  keeps memoryless_without_state_functions (perform o).
Proof.
  destruct o; cbn [perform].
  - apply memoryless_functions_state_setter.
  - frame_keeps.
  - apply memoryless_functions_state_equation_setter.
  - frame_keeps.
  - frame_keeps.
  - apply keeps_ret.
  - unfold copy. repeat keeps_step.
Qed.

Lemma memoryless_functions_init (a : init_args) :
  keeps memoryless_without_state_functions (__init__ a).
Proof.
  unfold __init__.
  repeat match goal with
         | |- keeps _ (bind _ _) => apply keeps_bind; [|intro]
         end;
    first [ apply memoryless_functions_state_setter
          | apply memoryless_functions_state_equation_setter
          | frame_keeps ].
Qed.

(** X10.  A memoryless system never holds a state-equation function or a
    Jacobian function: none exists when the constructor returns, and no
    sequence of operations, returned or raised, generates one. *)
Theorem memoryless_has_no_state_functions
    (a : init_args) (tr tr0 : trace) (s0 : system) (os : list operation) :
  construct MemorylessSystem a tr = (tr0, Ok s0) ->
  let s := snd (perform_all os (tr0, s0)) in
  state_equation_function s = None /\
  state_jacobian_equation_function s = None /\
  input_jacobian_equation_function s = None.
Proof.
  intros Hc. apply construct_init in Hc.
  assert (H0 : memoryless_without_state_functions (snd (tr0, s0))).
  { pose proof (memoryless_functions_init a (tr, blank MemorylessSystem)) as H.
    rewrite Hc in H. apply H. repeat split. }
  clear Hc. revert H0. generalize (tr0, s0). clear.
  induction os as [|o os IH]; intros st H; cbn [perform_all].
  - exact (proj2 H).
  - apply IH, memoryless_functions_perform, H.
Qed.

Lemma memoryless_has_no_state_functions_witness :
  let os := [SetStateEquation (PArray []); SetInput (PArray [sym_x]);
             SetStateEquation PNone; SetOutputEquation (PArray [sym_x])] in
  construct MemorylessSystem gain_args [] = (fst gain, Ok (snd gain)) /\
  state_equation_function (snd (perform_all os gain)) = None /\
  state_jacobian_equation_function (snd (perform_all os gain)) = None /\
  input_jacobian_equation_function (snd (perform_all os gain)) = None.
Proof.
  intros os. split; [reflexivity|].
  exact (memoryless_has_no_state_functions gain_args [] (fst gain) (snd gain)
           os eq_refl).
Defined.

(** ** More on copies *)

(** X11.  A copy that is returned was built with the default code
    generator and the default keyword arguments, whatever the source was
    built with: its Jacobian functions, if it has any, were made by the
    default generator, while its state-equation and output functions are
    the source's objects.  Its initial condition is the zero vector, and
    its event counter is zero. *)
Theorem copy_uses_defaults (tr tr' : trace) (s s' c : system) :
  copy (tr, s) = ((tr', s'), Ok c) ->
  code_generator c = DEFAULT_CODE_GENERATOR /\
  code_generator_args c = DEFAULT_CODE_GENERATOR_ARGS /\
  made_by c (state_jacobian_equation_function c) /\
  made_by c (input_jacobian_equation_function c) /\
  state_equation_function c = state_equation_function s /\
  output_equation_function c = output_equation_function s /\
  _initial_condition c = repeat 0 (length (_state s)) /\
  n_events c = 0%nat.
Proof.
  destruct s. unfold copy, new, __init__, state_setter,
    DynamicalSystem_state_setter, MemorylessSystem_state_setter, input_setter,
    initial_condition_setter, state_equation_setter, output_equation_setter.
  unfold_updates.
  destruct cls0, output_equation_function0, state_equation_function0,
    _output_equation0;
    run_cases; intros H; try discriminate H.
  all: injection H as H1 H2 H3; subst tr' s' c; unfold made_by; cbn.
  all: maker.
Qed.

Lemma copy_uses_defaults_witness :
  code_generator (snd custom) = theano_function /\
  exists tr' c f g,
    copy custom = ((tr', snd custom), Ok c) /\
    code_generator c = lambdify_with_vector_args /\
    state_equation_function c = Some f /\
    fgen f = theano_function /\
    state_jacobian_equation_function c = Some g /\
    fgen g = lambdify_with_vector_args.
Proof.
  split; [reflexivity|].
  destruct (copy custom) as [[tr' s'] r] eqn:E.
  assert (Hs : s' = snd custom)
    by (vm_compute in E; injection E as _ <- _; reflexivity).
  destruct r as [c|e]; [|vm_compute in E; discriminate E].
  subst s'.
  destruct (copy_uses_defaults (fst custom) tr' (snd custom) (snd custom) c E)
    as (G & _ & Mj & _ & Fs & _).
  vm_compute in E. injection E as _ Ec.
  eexists tr', c, _, _. split; [reflexivity|]. split; [exact G|].
  split; [rewrite Fs; reflexivity|]. split; [reflexivity|].
  subst c. split; reflexivity.
Defined.

(** X12.  Copying a system that has state but was given no state equation
    raises [AssertionError]: the stored equation is then the empty array,
    [copy] hands it to the constructor as a value other than [None], and
    its length is not the length of the state.  Nothing has been generated
    by then and the source is untouched. *)
Theorem copy_without_state_equation (tr : trace) (s : system) :
  cls s = DynamicalSystem ->
  _state s <> [] ->
  _state_equation s = [] ->
  copy (tr, s) = ((tr, s), Raise AssertionError).
Proof.
  destruct s. cbn [cls _state _state_equation]. intros -> Hs ->.
  destruct _state0 as [|e l]; [congruence|].
  unfold copy, new, __init__, state_setter, DynamicalSystem_state_setter,
    input_setter, initial_condition_setter, state_equation_setter.
  reflexivity.
Qed.

Lemma copy_without_state_equation_witness :
  construct DynamicalSystem bare_args [] = (fst bare, Ok (snd bare)) /\
  cls (snd bare) = DynamicalSystem /\
  _state (snd bare) <> [] /\
  _state_equation (snd bare) = [] /\
  copy bare = (bare, Raise AssertionError).
Proof.
  split; [reflexivity|]. split; [reflexivity|].
  assert (H : _state (snd bare) <> []) by discriminate.
  split; [exact H|]. split; [reflexivity|].
  exact (copy_without_state_equation (fst bare) (snd bare) eq_refl H eq_refl).
Defined.

(** ** Generated bodies mention parameters only *)

Lemma dict_get_key {V : Type} (k : string) (d : list (string * V)) :
  In k (map fst d) -> exists v, dict_get k d = Some v.
Proof.
  induction d as [|[k1 v1] d IH]; [intros []|].
  cbn. destruct (String.eqb k k1) eqn:E; [eexists; reflexivity|].
  intros [H|H]; [|exact (IH H)].
  subst. rewrite String.eqb_refl in E. discriminate E.
Qed.

(** Substituting the constants removes every plain symbol that is neither
    unknown nor time. *)
Lemma subs_atoms (d : list (string * Z)) (e : expr) :
  incl (atoms_Symbol e) (map Sym (map fst d) ++ [Time]) ->
  incl (atoms_Symbol (subs d e)) [Time].
Proof.
  induction e as [n| |c|x|a IHa b IHb|a IHa b IHb]; cbn [atoms_Symbol subs];
    intros H.
  - intros y [].
  - apply incl_refl.
  - assert (Hc : In c (map fst d)).
    { specialize (H (Sym c) (or_introl eq_refl)).
      apply in_app_or in H. destruct H as [H|[H|[]]]; [|discriminate H].
      apply in_map_iff in H. destruct H as (k & Hk & Hin).
      injection Hk as <-. exact Hin. }
    destruct (dict_get_key c d Hc) as [v ->]. intros y [].
  - apply incl_refl.
  - apply incl_app; [apply IHa|apply IHb]; intros y Hy; apply H, in_or_app; auto.
  - apply incl_app; [apply IHa|apply IHb]; intros y Hy; apply H, in_or_app; auto.
Qed.

Lemma subs_dynamicsymbols (d : list (string * Z)) (e : expr) :
  find_dynamicsymbols (subs d e) = find_dynamicsymbols e.
Proof.
  induction e as [n| |c|x|a IHa b IHb|a IHa b IHb]; cbn [find_dynamicsymbols subs];
    try reflexivity.
  - destruct (dict_get c d); reflexivity.
  - rewrite IHa, IHb. reflexivity.
  - rewrite IHa, IHb. reflexivity.
Qed.

Lemma subs_closed (d : list (string * Z)) (vars : list expr) (e : expr) :
  incl (atoms_Symbol e) (map Sym (map fst d) ++ [Time]) ->
  incl (find_dynamicsymbols e) vars ->
  incl (atoms_Symbol (subs d e) ++ find_dynamicsymbols (subs d e)) (Time :: vars).
Proof.
  intros Ha Hd. apply incl_app.
  - intros y Hy. apply (subs_atoms d e Ha) in Hy. destruct Hy as [<-|[]].
    left. reflexivity.
  - rewrite subs_dynamicsymbols. intros y Hy. right. apply Hd, Hy.
Qed.

Lemma subs_closed_array (d : list (string * Z)) (vars l : list expr) :
  subset (flat_map atoms_Symbol l) (map Sym (map fst d) ++ [Time]) = true ->
  subset (flat_map find_dynamicsymbols l) vars = true ->
  closed_over (Time :: vars) (SArray (map (subs d) l)).
Proof.
  intros Ha Hd e He. cbn [symval_exprs] in He.
  apply in_map_iff in He. destruct He as (e0 & <- & He0).
  apply subset_incl in Ha. apply subset_incl in Hd.
  apply subs_closed; intros y Hy; [apply Ha|apply Hd];
    apply in_flat_map; exists e0; split; assumption.
Qed.

Lemma subs_closed_expr (d : list (string * Z)) (vars : list expr) (e : expr) :
  subset (flat_map atoms_Symbol [e]) (map Sym (map fst d) ++ [Time]) = true ->
  subset (flat_map find_dynamicsymbols [e]) vars = true ->
  closed_over (Time :: vars) (SExpr (subs d e)).
Proof.
  intros Ha Hd e' [<-|[]].
  apply subset_incl in Ha. apply subset_incl in Hd.
  cbn [flat_map] in Ha, Hd. rewrite app_nil_r in Ha, Hd.
  apply subs_closed; assumption.
Qed.

(** X13.  On a system with state, the state-equation function generated by
    an accepted assignment has a body that mentions nothing but its own
    parameters: the checks of the setter leave no dynamic symbol outside
    state and input, and substitution leaves no constant symbol behind. *)
Theorem state_equation_function_closed
    (v : pyval) (tr tr' : trace) (s s' : system) :
  dim_state s <> 0%nat ->
  state_equation_setter v (tr, s) = ((tr', s'), Ok tt) ->
  exists f,
    state_equation_function s' = Some f /\
    fargs f = Time :: _state s ++ _inputs s /\
    closed_over (fargs f) (fbody f).
Proof.
  destruct s. cbn [dim_state _state _inputs]. intros Hd.
  apply Nat.eqb_neq in Hd.
  unfold state_equation_setter. unfold_updates.
  destruct v as [|x|l]; run_cases; intros H; try discriminate H;
    try congruence;
    injection H as <- <-; cbn;
    eexists; (split; [reflexivity|]); (split; [reflexivity|]); cbn.
  - intros e [].
  - apply subs_closed_array; assumption.
Qed.

Lemma state_equation_function_closed_witness :
  dim_state (snd custom) <> 0%nat /\
  exists tr' s' f,
    state_equation_setter (PArray [Mul (Sym "k") (Mul sym_x sym_x)]) custom
      = ((tr', s'), Ok tt) /\
    state_equation_function s' = Some f /\
    fbody f = SArray [Mul (Num (-2)) (Mul sym_x sym_x)] /\
    closed_over (fargs f) (fbody f).
Proof.
  assert (Hd : dim_state (snd custom) <> 0%nat) by (cbn; lia).
  split; [exact Hd|].
  destruct (state_equation_setter (PArray [Mul (Sym "k") (Mul sym_x sym_x)]) custom)
    as [[tr' s'] r] eqn:E.
  assert (Hr : r = Ok tt) by (vm_compute in E; injection E as _ _ <-; reflexivity).
  subst r.
  destruct (state_equation_function_closed _ (fst custom) tr' (snd custom) s' Hd E)
    as (f & Hf & _ & Hc).
  exists tr', s', f. split; [reflexivity|]. split; [exact Hf|].
  split; [|exact Hc].
  vm_compute in E. injection E as _ <-. cbn in Hf. injection Hf as <-.
  reflexivity.
Defined.

(** X14.  The output function generated by an accepted output-equation
    assignment has a body that mentions nothing but its own parameters,
    which are time and the state symbols on a system with state, time and
    the input symbols on a system without. *)
Theorem output_equation_function_closed
    (v : pyval) (tr tr' : trace) (s s' : system) :
  output_equation_setter v (tr, s) = ((tr', s'), Ok tt) ->
  dim_output s' <> 0%nat ->
  exists f,
    output_equation_function s' = Some f /\
    fargs f = Time :: (if Nat.eqb (dim_state s) 0 then _inputs s else _state s) /\
    closed_over (fargs f) (fbody f).
Proof.
  destruct s. cbn [dim_state _state _inputs].
  unfold output_equation_setter. unfold_updates.
  destruct v as [|x|l]; run_cases; intros H; try discriminate H;
    injection H as <- <-; cbn; intros Hd; try congruence;
    try (apply Nat.eqb_eq in Heqb; congruence);
    repeat match goal with
           | H : (?n =? 0)%nat = true, N : ?n <> 0%nat |- _ =>
               apply Nat.eqb_eq in H; contradiction
           end;
    eexists; (split; [reflexivity|]); (split; [reflexivity|]); cbn;
    first [ apply subs_closed_array; assumption
          | apply subs_closed_expr; assumption ].
Qed.

Lemma output_equation_function_closed_witness :
  exists tr' s' f,
    output_equation_setter (PExpr (Mul (Sym "k") sym_x)) custom
      = ((tr', s'), Ok tt) /\
    dim_output s' <> 0%nat /\
    output_equation_function s' = Some f /\
    fargs f = [Time; sym_x] /\
    closed_over (fargs f) (fbody f).
Proof.
  destruct (output_equation_setter (PExpr (Mul (Sym "k") sym_x)) custom)
    as [[tr' s'] r] eqn:E.
  assert (Hr : r = Ok tt) by (vm_compute in E; injection E as _ _ <-; reflexivity).
  subst r.
  assert (Hd : dim_output s' <> 0%nat)
    by (vm_compute in E; injection E as _ <-; cbn; lia).
  destruct (output_equation_function_closed _ (fst custom) tr' (snd custom) s' E Hd)
    as (f & Hf & Ha & Hc).
  exists tr', s', f. split; [reflexivity|]. split; [exact Hd|].
  split; [exact Hf|]. split; [exact Ha|exact Hc].
Defined.
